(** * HealNav: the priority scorer of [supabase/functions/predict-priority/index.ts]

    A shallow embedding of the edge function's pure parts: the zod schema
    [patientSchema], the additive scorer [predictPriority], the two message
    builders and the error mapping [mapErrorToSafeResponse].

    Conventions.
    - A JavaScript string is a [string] holding its UTF-8 encoding; [js_length]
      recovers the number of UTF-16 code units that [.length] counts.
    - A validated integer ([z.number().int()]) is a [Z].
    - The TypeScript unions of [src/types/patient.ts] are inductive types. *)

From Stdlib Require Import ZArith Bool List String Ascii Lia.
From Stdlib Require Import Permutation Sorted.
Import ListNotations.

Local Open Scope string_scope.
Local Open Scope Z_scope.

(** ** JavaScript strings *)

Definition char_code (c : ascii) : N := N_of_ascii c.

(** UTF-16 code units contributed by one UTF-8 byte: a continuation byte
    contributes nothing, the lead byte of a four-byte sequence a surrogate
    pair, any other lead byte one unit. *)
Definition utf16_units (c : ascii) : nat :=
  let n := char_code c in
  if ((128 <=? n) && (n <? 192))%N then 0%nat
  else if (240 <=? n)%N then 2%nat
  else 1%nat.

Fixpoint js_length (s : string) : nat :=
  match s with
  | EmptyString => 0%nat
  | String c r => (utf16_units c + js_length r)%nat
  end.

(** [a-zA-Z] *)
Definition is_letter (c : ascii) : bool :=
  let n := char_code c in
  (((65 <=? n) && (n <=? 90)) || ((97 <=? n) && (n <=? 122)))%N.

(** The one-byte members of WhiteSpace and LineTerminator:
    TAB, LF, VT, FF, CR and SP. *)
Definition is_ascii_space (c : ascii) : bool :=
  let n := char_code c in
  (((9 <=? n) && (n <=? 13)) || (n =? 32))%N.

(** U+00A0, encoded C2 A0. *)
Definition is_space2 (a b : ascii) : bool :=
  ((char_code a =? 194) && (char_code b =? 160))%N.

(** The three-byte members: U+1680 (E1 9A 80), U+2000..U+200A (E2 80 80..8A),
    U+2028, U+2029 (E2 80 A8, A9), U+202F (E2 80 AF), U+205F (E2 81 9F),
    U+3000 (E3 80 80) and U+FEFF (EF BB BF). *)
Definition is_space3 (a b c : ascii) : bool :=
  let x := char_code a in
  let y := char_code b in
  let z := char_code c in
  (((x =? 225) && (y =? 154) && (z =? 128))
   || ((x =? 226) && (y =? 128)
       && (((128 <=? z) && (z <=? 138)) || (z =? 168) || (z =? 169) || (z =? 175)))
   || ((x =? 226) && (y =? 129) && (z =? 159))
   || ((x =? 227) && (y =? 128) && (z =? 128))
   || ((x =? 239) && (y =? 187) && (z =? 191)))%N.

(** Drops one white-space character ([\s]) from the front, if there is one. *)
Definition strip_space (s : string) : option string :=
  match s with
  | EmptyString => None
  | String a r1 =>
      if is_ascii_space a then Some r1
      else
        match r1 with
        | EmptyString => None
        | String b r2 =>
            if is_space2 a b then Some r2
            else
              match r2 with
              | EmptyString => None
              | String c r3 => if is_space3 a b c then Some r3 else None
              end
        end
  end.

Fixpoint trimStart_fuel (fuel : nat) (s : string) : string :=
  match fuel with
  | O => s
  | S fuel' =>
      match strip_space s with
      | Some r => trimStart_fuel fuel' r
      | None => s
      end
  end.

Definition trimStart (s : string) : string := trimStart_fuel (String.length s) s.

(** Whether the whole string is white space. *)
Definition is_blank (s : string) : bool :=
  match trimStart s with
  | EmptyString => true
  | String _ _ => false
  end.

Fixpoint trimEnd (s : string) : string :=
  match s with
  | EmptyString => EmptyString
  | String c r => if is_blank s then EmptyString else String c (trimEnd r)
  end.

(** [String.prototype.trim] *)
Definition trim (s : string) : string := trimEnd (trimStart s).

(** [/^[a-zA-Z\s]+$/.test(s)] *)
Fixpoint letters_or_spaces (fuel : nat) (s : string) : bool :=
  match fuel with
  | O => false
  | S fuel' =>
      match s with
      | EmptyString => true
      | String a r =>
          if is_letter a then letters_or_spaces fuel' r
          else
            match strip_space s with
            | Some r' => letters_or_spaces fuel' r'
            | None => false
            end
      end
  end.

Definition gender_regex (s : string) : bool :=
  negb (s =? "")%string && letters_or_spaces (S (String.length s)) s.

(** ** Data model *)

Inductive PriorityLevel : Type := low | medium | high.

Inductive PainLevel : Type := mild | moderate | severe.

Inductive SeverityLevel : Type :=
  | severity_low | severity_medium | severity_high | severity_critical.

(** [PatientInput = z.infer<typeof patientSchema>]; [existing_disease] is
    [string | null]. *)
Record PatientInput : Type := mkPatientInput {
  age : Z;
  gender : string;
  chest_pain : bool;
  breathlessness : bool;
  fever : bool;
  pain_level : PainLevel;
  symptom_duration_days : Z;
  severity_level : SeverityLevel;
  existing_disease : option string
}.

(** ** patientSchema

    The schema is run on a request body whose fields already have the JSON
    types the schema asks for (a body of another shape is refused by zod
    before any of the checks below). What remains are the range, length and
    format checks and the transform of [existing_disease]. *)

Definition check_age (n : Z) : bool := (0 <=? n) && (n <=? 150).

Definition check_gender (s : string) : bool :=
  (1 <=? js_length s)%nat && (js_length s <=? 20)%nat && gender_regex s.

Definition check_duration (n : Z) : bool := (0 <=? n) && (n <=? 365).

(** [val => val?.trim() || null]: the empty string is falsy. *)
Definition transform_disease (val : option string) : option string :=
  match val with
  | None => None
  | Some s => if (trim s =? "")%string then None else Some (trim s)
  end.

Definition check_disease (val : option string) : bool :=
  match val with
  | None => true
  | Some s => (js_length s <=? 100)%nat
  end.

(** [patientSchema.safeParse(rawData)]: [Some data] on success. *)
Definition safeParse (raw : PatientInput) : option PatientInput :=
  if check_age (age raw) && check_gender (gender raw)
     && check_duration (symptom_duration_days raw)
     && check_disease (existing_disease raw)
  then Some (mkPatientInput (age raw) (gender raw) (chest_pain raw)
               (breathlessness raw) (fever raw) (pain_level raw)
               (symptom_duration_days raw) (severity_level raw)
               (transform_disease (existing_disease raw)))
  else None.

(** ** predictPriority

    The function keeps one mutable accumulator, [score]; every block of the
    source is a transformer of it, in source order. *)

(** Age factor (lines 92-94). *)
Definition ageFactor (data : PatientInput) (score : Z) : Z :=
  if age data >=? 70 then score + 25
  else if age data >=? 50 then score + 15
  else if age data >=? 30 then score + 5
  else score.

(** Critical symptoms (lines 97-99): three independent [if]s. *)
Definition criticalSymptoms (data : PatientInput) (score : Z) : Z :=
  let score := if chest_pain data then score + 30 else score in
  let score := if breathlessness data then score + 25 else score in
  let score := if fever data then score + 10 else score in
  score.

(** Pain level (lines 102-104). *)
Definition painLevel (data : PatientInput) (score : Z) : Z :=
  match pain_level data with
  | severe => score + 25
  | moderate => score + 15
  | _ => score + 5
  end.

(** Self-reported severity (lines 107-110). *)
Definition selfReportedSeverity (data : PatientInput) (score : Z) : Z :=
  match severity_level data with
  | severity_critical => score + 35
  | severity_high => score + 25
  | severity_medium => score + 15
  | _ => score + 5
  end.

(** Truthiness of a [string | null]: [null] and the empty string are falsy. *)
Definition truthy (val : option string) : bool :=
  match val with
  | None => false
  | Some s => negb (s =? "")%string
  end.

(** [val !== lit] for a [string | null] against a string literal. *)
Definition strict_neq (val : option string) (lit : string) : bool :=
  match val with
  | None => true
  | Some s => negb (s =? lit)%string
  end.

Definition strict_eq (val : option string) (lit : string) : bool :=
  negb (strict_neq val lit).

(** Existing conditions (lines 113-119). *)
Definition existingConditions (data : PatientInput) (score : Z) : Z :=
  if truthy (existing_disease data) && strict_neq (existing_disease data) "None"
  then
    if strict_eq (existing_disease data) "Heart Disease" then score + 20
    else if strict_eq (existing_disease data) "Diabetes" then score + 15
    else if strict_eq (existing_disease data) "Hypertension" then score + 15
    else if strict_eq (existing_disease data) "Asthma" then score + 10
    else score + 5
  else score.

(** Symptom duration (lines 122-123). *)
Definition symptomDuration (data : PatientInput) (score : Z) : Z :=
  if symptom_duration_days data <=? 1 then score + 10
  else if symptom_duration_days data <=? 3 then score + 5
  else score.

(** The value of [score] when line 126 is reached. *)
Definition totalScore (data : PatientInput) : Z :=
  let score := 0 in
  let score := ageFactor data score in
  let score := criticalSymptoms data score in
  let score := painLevel data score in
  let score := selfReportedSeverity data score in
  let score := existingConditions data score in
  let score := symptomDuration data score in
  score.

(** Determine priority based on score (lines 126-128). *)
Definition determinePriority (score : Z) : PriorityLevel :=
  if score >=? 75 then high
  else if score >=? 45 then medium
  else low.

Definition predictPriority (data : PatientInput) : PriorityLevel :=
  determinePriority (totalScore data).

(** ** Messages *)

Definition getActionMessage (priority : PriorityLevel) : string :=
  match priority with
  | high => "Proceed to Emergency Ward immediately"
  | medium => "Consult a doctor today"
  | low => "OPD visit can be scheduled later"
  end.

(** The string value of a [PriorityLevel]. *)
Definition priority_string (priority : PriorityLevel) : string :=
  match priority with
  | low => "low"
  | medium => "medium"
  | high => "high"
  end.

(** [String.prototype.toUpperCase] on the letters a-z; every other byte is
    kept (the function is only applied to [priority_string]). *)
Definition upper_char (c : ascii) : ascii :=
  let n := char_code c in
  if ((97 <=? n) && (n <=? 122))%N then ascii_of_N (n - 32) else c.

Fixpoint toUpperCase (s : string) : string :=
  match s with
  | EmptyString => EmptyString
  | String c r => String (upper_char c) (toUpperCase r)
  end.

(** A line feed. *)
Definition LF : string := String (ascii_of_N 10) EmptyString.

(** U+2013 EN DASH, encoded E2 80 93. *)
Definition en_dash : string :=
  String (ascii_of_N 226) (String (ascii_of_N 128) (String (ascii_of_N 147) EmptyString)).

(** The template literal of lines 146-156. *)
Definition getNotificationMessage (priority : PriorityLevel) (tokenNumber : string)
  : string :=
  let priorityText := toUpperCase (priority_string priority) in
  let action := getActionMessage priority in
  "Dear Patient," ++ LF
  ++ LF
  ++ "Your condition has been assessed as " ++ priorityText ++ " priority." ++ LF
  ++ LF
  ++ "Token Number: " ++ tokenNumber ++ LF
  ++ LF
  ++ action ++ "." ++ LF
  ++ LF
  ++ "Thank you for using HealNav." ++ LF
  ++ LF
  ++ en_dash ++ " HealNav - Smart Care Patient Priority System".

(** ** Error mapping *)

(** What can be thrown and caught as [error: unknown]. An object carries
    whether it is an instance of [z.ZodError] and the properties reachable
    from it, in lookup order. *)
Inductive JsValue : Type :=
  | JsUndefined
  | JsNull
  | JsBoolean (b : bool)
  | JsNumber (n : Z)
  | JsString (s : string)
  | JsObject (zod : bool) (props : Properties)
with Properties : Type :=
  | no_property
  | property (key : string) (value : JsValue) (rest : Properties).

(** [error instanceof z.ZodError] *)
Definition instanceofZodError (error : JsValue) : bool :=
  match error with
  | JsObject zod _ => zod
  | _ => false
  end.

(** ToBoolean *)
Definition js_truthy (v : JsValue) : bool :=
  match v with
  | JsUndefined | JsNull => false
  | JsBoolean b => b
  | JsNumber n => negb (n =? 0)
  | JsString s => negb (s =? "")%string
  | JsObject _ _ => true
  end.

(** [typeof v === "object"] *)
Definition typeof_object (v : JsValue) : bool :=
  match v with
  | JsNull | JsObject _ _ => true
  | _ => false
  end.

Fixpoint lookup (key : string) (props : Properties) : option JsValue :=
  match props with
  | no_property => None
  | property k v rest => if (k =? key)%string then Some v else lookup key rest
  end.

(** [error.key], for an object. *)
Definition get_property (key : string) (error : JsValue) : option JsValue :=
  match error with
  | JsObject _ props => lookup key props
  | _ => None
  end.

(** [key in error], for an object. *)
Definition has_property (key : string) (error : JsValue) : bool :=
  match get_property key error with
  | Some _ => true
  | None => false
  end.

(** Whether a [switch] on the value selects [case lit:]; the comparison is
    strict equality, so only the string itself matches. *)
Definition case_label (v : option JsValue) (lit : string) : bool :=
  match v with
  | Some (JsString s) => (s =? lit)%string
  | _ => false
  end.

Record SafeResponse : Type := mkSafeResponse {
  message : string;
  status : Z
}.

(** Lines 48-85. The [console.error] of line 50 writes to the server log
    only and is left out. *)
Definition mapErrorToSafeResponse (error : JsValue) : SafeResponse :=
  if instanceofZodError error then
    mkSafeResponse "Invalid input data provided. Please check your submission." 400
  else if js_truthy error && typeof_object error && has_property "code" error then
    let pgError_code := get_property "code" error in
    if case_label pgError_code "23505" then
      mkSafeResponse "A record with this information already exists" 409
    else if case_label pgError_code "23503" then
      mkSafeResponse "Referenced record not found" 400
    else
      mkSafeResponse "Unable to save patient information. Please try again." 500
  else
    mkSafeResponse "An error occurred while processing your request" 500.

(** The two ways [serve] answers with an error: the schema refused the body
    (lines 174-185), or something was thrown and caught (lines 234-244). *)
Inductive Failure : Type :=
  | ValidationFailed
  | Thrown (error : JsValue).

(** The [error] field of the JSON body and the HTTP status of the reply. *)
Definition errorReply (f : Failure) : SafeResponse :=
  match f with
  | ValidationFailed =>
      mkSafeResponse
        "Invalid input data. Please check your submission and try again." 400
  | Thrown error =>
      let errorResponse := mapErrorToSafeResponse error in
      mkSafeResponse (message errorResponse) (status errorResponse)
  end.

(** ** The scoring rules as the specification words them

    One point table per factor, added up and then bucketed. *)

Definition spec_age_points (a : Z) : Z :=
  if 70 <=? a then 25
  else if 50 <=? a then 15
  else if 30 <=? a then 5
  else 0.

Definition spec_symptom_points (present : bool) (points : Z) : Z :=
  if present then points else 0.

Definition spec_pain_points (p : PainLevel) : Z :=
  match p with
  | severe => 25
  | moderate => 15
  | mild => 5
  end.

Definition spec_severity_points (s : SeverityLevel) : Z :=
  match s with
  | severity_critical => 35
  | severity_high => 25
  | severity_medium => 15
  | severity_low => 5
  end.

(** Present (non-empty) and not the sentinel "None": one named band or the
    generic one; otherwise nothing. *)
Definition spec_condition_points (d : option string) : Z :=
  match d with
  | None => 0
  | Some s =>
      if ((s =? "") || (s =? "None"))%string then 0
      else if (s =? "Heart Disease")%string then 20
      else if (s =? "Diabetes")%string then 15
      else if (s =? "Hypertension")%string then 15
      else if (s =? "Asthma")%string then 10
      else 5
  end.

Definition spec_duration_points (d : Z) : Z :=
  if d <=? 1 then 10
  else if d <=? 3 then 5
  else 0.

Definition spec_total (r : PatientInput) : Z :=
  spec_age_points (age r)
  + spec_symptom_points (chest_pain r) 30
  + spec_symptom_points (breathlessness r) 25
  + spec_symptom_points (fever r) 10
  + spec_pain_points (pain_level r)
  + spec_severity_points (severity_level r)
  + spec_condition_points (existing_disease r)
  + spec_duration_points (symptom_duration_days r).

Definition spec_bucket (total : Z) : PriorityLevel :=
  if 75 <=? total then high
  else if (45 <=? total) && (total <? 75) then medium
  else low.

(** ** Bands and their order

    The band of a factor is the branch of its [if] chain that fires, counted
    from the last branch (0) to the first. *)

Definition age_band (a : Z) : nat :=
  if a >=? 70 then 3 else if a >=? 50 then 2 else if a >=? 30 then 1 else 0.



Definition disease_band (d : option string) : nat :=
  if truthy d && strict_neq d "None" then
    if strict_eq d "Heart Disease" then 5
    else if strict_eq d "Diabetes" then 4
    else if strict_eq d "Hypertension" then 3
    else if strict_eq d "Asthma" then 2
    else 1
  else 0.

Definition duration_band (d : Z) : nat :=
  if d <=? 1 then 2 else if d <=? 3 then 1 else 0.

(** Field updates: the same report with one field replaced. *)

Definition set_age (a : Z) (r : PatientInput) : PatientInput :=
  mkPatientInput a (gender r) (chest_pain r) (breathlessness r) (fever r)
    (pain_level r) (symptom_duration_days r) (severity_level r) (existing_disease r).





Definition set_symptom_duration_days (d : Z) (r : PatientInput) : PatientInput :=
  mkPatientInput (age r) (gender r) (chest_pain r) (breathlessness r) (fever r)
    (pain_level r) d (severity_level r) (existing_disease r).


Definition set_existing_disease (d : option string) (r : PatientInput) : PatientInput :=
  mkPatientInput (age r) (gender r) (chest_pain r) (breathlessness r) (fever r)
    (pain_level r) (symptom_duration_days r) (severity_level r) d.




(** ** Redaction

    What [mapErrorToSafeResponse] is allowed to look at: whether the value is
    a [ZodError], and its [code]. Everything else an error carries (message,
    details, hint, stack) is dropped by [redact]. *)

Fixpoint only_code (props : Properties) : Properties :=
  match props with
  | no_property => no_property
  | property k v rest =>
      if (k =? "code")%string then property k v (only_code rest) else only_code rest
  end.

Definition redact (error : JsValue) : JsValue :=
  match error with
  | JsObject zod props => JsObject zod (only_code props)
  | _ => JsUndefined
  end.

(** The literals [mapErrorToSafeResponse] can return. *)
Definition generic_messages : list string :=
  [ "Invalid input data provided. Please check your submission.";
    "A record with this information already exists";
    "Referenced record not found";
    "Unable to save patient information. Please try again.";
    "An error occurred while processing your request" ].

(** The literals an error reply of [serve] can carry. *)
Definition client_messages : list string :=
  "Invalid input data. Please check your submission and try again."
  :: generic_messages.

Definition is_digit (c : ascii) : bool :=
  let n := char_code c in ((48 <=? n) && (n <=? 57))%N.

Fixpoint has_digit (s : string) : bool :=
  match s with
  | EmptyString => false
  | String c r => is_digit c || has_digit r
  end.

(** ** Sample reports *)

(** Scenario 1 of the specification. *)
Definition scenario1 : PatientInput :=
  mkPatientInput 75 "Male" true true false severe 1 severity_critical
    (Some "Heart Disease").

(** Scenario 2: nothing but the two unconditional contributions. *)
Definition scenario2 : PatientInput :=
  mkPatientInput 25 "Female" false false false mild 10 severity_low None.

(** Scenario 3. *)
Definition scenario3 : PatientInput :=
  mkPatientInput 55 "Female" false true true moderate 5 severity_medium
    (Some "Diabetes").

(** Every factor in its top band. *)
Definition worst_case : PatientInput :=
  mkPatientInput 70 "Male" true true true severe 0 severity_critical
    (Some "Heart Disease").

(** A database error as the client library reports it. *)
Definition unique_violation : JsValue :=
  JsObject false
    (property "message"
       (JsString "duplicate key value violates unique constraint patients_token_number_key")
       (property "details" (JsString "Key (token_number)=(T-0042) already exists.")
          (property "code" (JsString "23505") no_property))).

(** The upper-case name of a tier, as a table. *)
Definition spec_upper_name (p : PriorityLevel) : string :=
  match p with
  | low => "LOW"
  | medium => "MEDIUM"
  | high => "HIGH"
  end.

(** The notification as its eleven lines. *)
Definition spec_notification_lines (p : PriorityLevel) (token : string) : list string :=
  [ "Dear Patient,";
    "";
    "Your condition has been assessed as " ++ spec_upper_name p ++ " priority.";
    "";
    "Token Number: " ++ token;
    "";
    getActionMessage p ++ ".";
    "";
    "Thank you for using HealNav.";
    "";
    "– HealNav - Smart Care Patient Priority System" ].

(** A string made of white-space characters only. *)
Inductive Blank : string -> Prop :=
  | Blank_empty : Blank ""
  | Blank_space s r : strip_space s = Some r -> Blank r -> Blank s.

(** ** The request handler

    [serve] talks to three collaborators: the client constructor, the
    [generate_token_number] procedure and the insert into [patients]. Their
    answers are parameters of the model, and the calls the handler makes are
    recorded in order. *)

(** How a step ends: with a value, or by throwing. *)
Inductive Completion (A : Type) : Type :=
  | normal (value : A)
  | throw (error : JsValue).

Arguments normal {A} value.
Arguments throw {A} error.

(** The [{ data, error }] pair of the database client: [error] is null and
    [data] is set, or [error] is an error object. *)
Inductive Reply (A : Type) : Type :=
  | fulfilled (data : A)
  | failed (error : Properties).

Arguments fulfilled {A} data.
Arguments failed {A} error.

(** What [req.json()] resolves to: a body whose fields have the JSON types
    the schema asks for, or any other JSON value. *)
Inductive RawData : Type :=
  | typed_body (raw : PatientInput)
  | other_body.

(** [patientSchema.safeParse] on an arbitrary body. *)
Definition safeParse_body (rawData : RawData) : option PatientInput :=
  match rawData with
  | typed_body raw => safeParse raw
  | other_body => None
  end.

Inductive PatientStatus : Type := waiting | in_progress | completed.

(** The object passed to [insert] (lines 203-216). *)
Module PatientRow.
Record t : Type := mk {
  age : Z;
  gender : string;
  chest_pain : bool;
  breathlessness : bool;
  fever : bool;
  pain_level : PainLevel;
  symptom_duration_days : Z;
  self_reported_severity : SeverityLevel;
  existing_disease : option string;
  token_number : string;
  ai_priority : PriorityLevel;
  status : PatientStatus
}.
End PatientRow.

Record Request : Type := mkRequest {
  method : string;
  json : Completion RawData
}.

Record Collaborators : Type := mkCollaborators {
  createClient : Completion unit;
  generate_token_number : Reply string;
  insert_patient : PatientRow.t -> Reply string
}.

Inductive Call : Type :=
  | rpc_call
  | insert_call (row : PatientRow.t).

Inductive Body : Type :=
  | null_body
  | error_body (error : string)
  | result_body (priority : PriorityLevel)
      (action message token_number patient_id : string).

Record Response : Type := mkResponse {
  headers : list (string * string);
  http_status : Z;
  body : Body
}.

Definition corsHeaders : list (string * string) :=
  [ ("Access-Control-Allow-Origin", "*");
    ("Access-Control-Allow-Headers",
     "authorization, x-client-info, apikey, content-type") ].

(** [{ ...corsHeaders, "Content-Type": "application/json" }] *)
Definition jsonHeaders : list (string * string) :=
  corsHeaders ++ [ ("Content-Type", "application/json") ].

(** The [try] block (lines 166-233): its completion and the calls made. *)
Definition serve_try (supabase : Collaborators) (req : Request)
  : Completion Response * list Call :=
  match createClient supabase with
  | throw error => (throw error, [])
  | normal _ =>
  match json req with
  | throw error => (throw error, [])
  | normal rawData =>
  match safeParse_body rawData with
  | None =>
      (normal (mkResponse jsonHeaders 400
                 (error_body
                    "Invalid input data. Please check your submission and try again.")),
       [])
  | Some patientData =>
      let priority := predictPriority patientData in
      match generate_token_number supabase with
      | failed tokenError => (throw (JsObject false tokenError), [rpc_call])
      | fulfilled tokenNumber =>
          let row :=
            PatientRow.mk (age patientData) (gender patientData)
              (chest_pain patientData) (breathlessness patientData)
              (fever patientData) (pain_level patientData)
              (symptom_duration_days patientData) (severity_level patientData)
              (existing_disease patientData) tokenNumber priority waiting in
          match insert_patient supabase row with
          | failed insertError =>
              (throw (JsObject false insertError), [rpc_call; insert_call row])
          | fulfilled patient_id =>
              (normal (mkResponse jsonHeaders 200
                         (result_body priority (getActionMessage priority)
                            (getNotificationMessage priority tokenNumber)
                            tokenNumber patient_id)),
               [rpc_call; insert_call row])
          end
      end
  end
  end
  end.

(** Lines 159-245. *)
Definition serve (supabase : Collaborators) (req : Request)
  : Response * list Call :=
  if (method req =? "OPTIONS")%string then
    (mkResponse corsHeaders 200 null_body, [])
  else
    match serve_try supabase req with
    | (normal response, calls) => (response, calls)
    | (throw error, calls) =>
        let errorResponse := mapErrorToSafeResponse error in
        (mkResponse jsonHeaders (status errorResponse)
           (error_body (message errorResponse)),
         calls)
    end.

(** ** The form (PatientForm)

    The values its two free-choice selects can submit; the other selects
    offer exactly the members of [PainLevel] and [SeverityLevel]. *)

Definition genderOptions : list string := [ "Male"; "Female"; "Other" ].

Definition diseaseOptions : list string :=
  [ "None"; "Diabetes"; "Hypertension"; "Heart Disease"; "Asthma"; "Other" ].

(** ** The dashboard (DoctorDashboard) *)

(** A row of [patients] as the dashboard receives it. [created_at] holds the
    epoch milliseconds that [new Date(created_at).getTime()] gives for the
    column's timestamp. *)
Module DashboardPatient.
Record t : Type := mk {
  id : string;
  age : Z;
  gender : string;
  chest_pain : bool;
  breathlessness : bool;
  fever : bool;
  pain_level : PainLevel;
  symptom_duration_days : Z;
  self_reported_severity : SeverityLevel;
  existing_disease : option string;
  token_number : string;
  ai_priority : option PriorityLevel;
  status : PatientStatus;
  created_at : Z;
  updated_at : Z
}.
End DashboardPatient.

(** [const priorityOrder = { high: 0, medium: 1, low: 2 }] *)
Definition priorityOrder (p : PriorityLevel) : Z :=
  match p with
  | high => 0
  | medium => 1
  | low => 2
  end.

(** [priority || "low"] *)
Definition or_low (priority : option PriorityLevel) : PriorityLevel :=
  match priority with
  | Some p => p
  | None => low
  end.

(** The comparator of lines 133-137 and 172-176. *)
Definition compareFn (a b : DashboardPatient.t) : Z :=
  let priorityDiff :=
    priorityOrder (or_low (DashboardPatient.ai_priority a))
    - priorityOrder (or_low (DashboardPatient.ai_priority b)) in
  if negb (priorityDiff =? 0) then priorityDiff
  else DashboardPatient.created_at b - DashboardPatient.created_at a.

(** [Array.prototype.sort] with a comparator. The language fixes the result
    for a consistent comparator: the elements in comparator order, equal
    ones in their original order. Insertion from the right computes it. *)
Section ArraySort.
Variable A : Type.
Variable comparefn : A -> A -> Z.

Fixpoint sort_insert (x : A) (sorted : list A) : list A :=
  match sorted with
  | [] => [x]
  | y :: rest =>
      if comparefn x y <=? 0 then x :: sorted
      else y :: sort_insert x rest
  end.

Fixpoint Array_sort (l : list A) : list A :=
  match l with
  | [] => []
  | x :: rest => sort_insert x (Array_sort rest)
  end.
End ArraySort.

Arguments sort_insert {A} comparefn x sorted.
Arguments Array_sort {A} comparefn l.

(** [fetchPatients], the branch without an error (lines 170-177). *)
Definition fetchPatients_sorted (data : list DashboardPatient.t) : list DashboardPatient.t :=
  Array_sort compareFn data.

(** The state update of an INSERT event (lines 131-139). *)
Definition onInsert (newPatient : DashboardPatient.t) (prev : list DashboardPatient.t)
  : list DashboardPatient.t :=
  let updated := (prev ++ [newPatient])%list in
  Array_sort compareFn updated.

(** The state update of an UPDATE event (lines 148-150). *)
Definition onUpdate (payload_new : DashboardPatient.t) (prev : list DashboardPatient.t)
  : list DashboardPatient.t :=
  map (fun p =>
         if (DashboardPatient.id p =? DashboardPatient.id payload_new)%string then payload_new
         else p)
      prev.

(** [p.ai_priority === "high"] *)
Definition is_high (p : DashboardPatient.t) : bool :=
  match DashboardPatient.ai_priority p with
  | Some high => true
  | _ => false
  end.

(** [p.status === "waiting"] *)
Definition is_waiting (p : DashboardPatient.t) : bool :=
  match DashboardPatient.status p with
  | waiting => true
  | _ => false
  end.

(** [stats] (lines 223-227). *)
Record Stats : Type := mkStats {
  total : nat;
  high_count : nat;
  waiting_count : nat
}.

Definition stats (patients : list DashboardPatient.t) : Stats :=
  mkStats (List.length patients)
    (List.length (filter is_high patients))
    (List.length (filter is_waiting patients)).

(** The Condition cell of a row (line 333). *)
Definition conditionCell (existing_disease : option string) : string :=
  match existing_disease with
  | Some s =>
      if truthy existing_disease && strict_neq existing_disease "None"
      then s else "-"
  | None => "-"
  end.

(** The order the comment of line 170 asks for: by priority, high first,
    then by time, newest first. *)
Definition queue_order (a b : DashboardPatient.t) : Prop :=
  priorityOrder (or_low (DashboardPatient.ai_priority a))
  < priorityOrder (or_low (DashboardPatient.ai_priority b))
  \/ (or_low (DashboardPatient.ai_priority a) = or_low (DashboardPatient.ai_priority b)
      /\ DashboardPatient.created_at b <= DashboardPatient.created_at a).

(** ** Sample collaborators and requests *)

(** The generator answers T-0042 and the insert succeeds. *)
Definition supabase_ok : Collaborators :=
  mkCollaborators (normal tt) (fulfilled "T-0042")
    (fun _ => fulfilled "7f3c2a9e").

(** The insert hits the unique constraint on the token. *)
Definition supabase_duplicate : Collaborators :=
  mkCollaborators (normal tt) (fulfilled "T-0042")
    (fun _ =>
       failed
         (property "message" (JsString "duplicate key value")
            (property "code" (JsString "23505") no_property))).

Definition post_scenario1 : Request :=
  mkRequest "POST" (normal (typed_body scenario1)).

(** The row [serve] builds for scenario 1 and token T-0042. *)
Definition row_scenario1 : PatientRow.t :=
  PatientRow.mk 75 "Male" true true false severe 1 severity_critical
    (Some "Heart Disease") "T-0042" high waiting.

(** ** Sample rows of the dashboard *)

Definition patient_high : DashboardPatient.t :=
  DashboardPatient.mk "p1" 75 "Male" true true false severe 1 severity_critical
    (Some "Heart Disease") "T-0001" (Some high) waiting 1000 1000.

Definition patient_low : DashboardPatient.t :=
  DashboardPatient.mk "p2" 25 "Female" false false false mild 10 severity_low
    None "T-0002" (Some low) waiting 2000 2000.

Definition patient_medium : DashboardPatient.t :=
  DashboardPatient.mk "p3" 55 "Female" false true false moderate 5 severity_medium
    (Some "None") "T-0003" (Some medium) waiting 3000 3000.

(** [patient_low] after the doctor has taken the patient in. *)
Definition patient_low_in_progress : DashboardPatient.t :=
  DashboardPatient.mk "p2" 25 "Female" false false false mild 10 severity_low
    None "T-0002" (Some low) in_progress 2000 4000.

(** * Properties *)

(** ** The accumulator *)

(** Splits on every boolean test in the goal. *)
Ltac split_tests :=
  repeat match goal with
         | |- context [if ?b then _ else _] => destruct b eqn:?
         end.

(** Every block adds to the accumulator an amount that does not depend on
    what the accumulator holds. *)
Lemma ageFactor_shift data score : ageFactor data score = score + ageFactor data 0.
Proof. unfold ageFactor. split_tests; lia. Qed.

Lemma criticalSymptoms_shift data score :
  criticalSymptoms data score = score + criticalSymptoms data 0.
Proof. unfold criticalSymptoms. split_tests; lia. Qed.

Lemma painLevel_shift data score : painLevel data score = score + painLevel data 0.
Proof. unfold painLevel. destruct (pain_level data); lia. Qed.

Lemma selfReportedSeverity_shift data score :
  selfReportedSeverity data score = score + selfReportedSeverity data 0.
Proof. unfold selfReportedSeverity. destruct (severity_level data); lia. Qed.

Lemma existingConditions_shift data score :
  existingConditions data score = score + existingConditions data 0.
Proof. unfold existingConditions. split_tests; lia. Qed.

Lemma symptomDuration_shift data score :
  symptomDuration data score = score + symptomDuration data 0.
Proof. unfold symptomDuration. split_tests; lia. Qed.

(** The total is the sum of the six blocks' own amounts. *)
Lemma totalScore_sum data :
  totalScore data =
  ageFactor data 0 + criticalSymptoms data 0 + painLevel data 0
  + selfReportedSeverity data 0 + existingConditions data 0
  + symptomDuration data 0.
Proof.
  unfold totalScore; cbv zeta.
  rewrite symptomDuration_shift, existingConditions_shift,
    selfReportedSeverity_shift, painLevel_shift, criticalSymptoms_shift.
  lia.
Qed.

(** *** Each block against its point table *)

Lemma ageFactor_points data : ageFactor data 0 = spec_age_points (age data).
Proof.
  unfold ageFactor, spec_age_points.
  rewrite !Z.geb_leb. split_tests; reflexivity.
Qed.

Lemma criticalSymptoms_points data :
  criticalSymptoms data 0 =
  spec_symptom_points (chest_pain data) 30
  + spec_symptom_points (breathlessness data) 25
  + spec_symptom_points (fever data) 10.
Proof.
  unfold criticalSymptoms, spec_symptom_points.
  destruct (chest_pain data), (breathlessness data), (fever data); reflexivity.
Qed.

Lemma painLevel_points data : painLevel data 0 = spec_pain_points (pain_level data).
Proof. unfold painLevel. destruct (pain_level data); reflexivity. Qed.

Lemma selfReportedSeverity_points data :
  selfReportedSeverity data 0 = spec_severity_points (severity_level data).
Proof. unfold selfReportedSeverity. destruct (severity_level data); reflexivity. Qed.

Lemma existingConditions_points data :
  existingConditions data 0 = spec_condition_points (existing_disease data).
Proof.
  unfold existingConditions, spec_condition_points, strict_eq, strict_neq, truthy.
  destruct (existing_disease data) as [s|]; [|reflexivity].
  destruct (s =? "")%string, (s =? "None")%string; simpl; try reflexivity.
  destruct (s =? "Heart Disease")%string, (s =? "Diabetes")%string,
    (s =? "Hypertension")%string, (s =? "Asthma")%string; reflexivity.
Qed.

Lemma symptomDuration_points data :
  symptomDuration data 0 = spec_duration_points (symptom_duration_days data).
Proof. reflexivity. Qed.

Lemma determinePriority_bucket score : determinePriority score = spec_bucket score.
Proof.
  unfold determinePriority, spec_bucket.
  rewrite !Z.geb_leb.
  destruct (75 <=? score) eqn:H75; [reflexivity|].
  destruct (45 <=? score) eqn:H45; [|reflexivity].
  assert ((score <? 75) = true) as -> by (apply Z.ltb_lt; apply Z.leb_gt in H75; lia).
  reflexivity.
Qed.

(** A report that passed the schema is within the schema's ranges and its
    [existing_disease] is [null] or a non-empty string. *)
Lemma safeParse_ranges raw data :
  safeParse raw = Some data ->
  0 <= age data <= 150
  /\ 0 <= symptom_duration_days data <= 365
  /\ existing_disease data <> Some "".
Proof.
  unfold safeParse.
  destruct (check_age (age raw)) eqn:Ha; [|discriminate].
  destruct (check_gender (gender raw)); [|discriminate].
  destruct (check_duration (symptom_duration_days raw)) eqn:Hd; [|discriminate].
  destruct (check_disease (existing_disease raw)); [|discriminate].
  simpl. intros [= <-]. simpl.
  unfold check_age in Ha. unfold check_duration in Hd.
  apply andb_prop in Ha as [Ha1 Ha2]. apply andb_prop in Hd as [Hd1 Hd2].
  apply Z.leb_le in Ha1, Ha2, Hd1, Hd2.
  repeat split; try assumption.
  unfold transform_disease.
  destruct (existing_disease raw) as [s|]; [|discriminate].
  destruct (trim s =? "")%string eqn:He; [discriminate|].
  intros [= Hs]. rewrite Hs in He. discriminate.
Qed.

(** C1. For every report accepted by the schema, the accumulated score is
    the sum of the specified band contributions (age, chest pain,
    breathlessness, fever, pain level, severity level, existing disease,
    symptom duration), and the priority is the bucketing of that sum:
    high from 75, medium from 45 to 74, low below; the result is always
    one of the three tiers. *)
Theorem predictPriority_refines_spec raw data :
  safeParse raw = Some data ->
  totalScore data = spec_total data
  /\ predictPriority data = spec_bucket (spec_total data)
  /\ In (predictPriority data) [low; medium; high].
Proof.
  intros _.
  assert (Htotal : totalScore data = spec_total data).
  { rewrite totalScore_sum.
    rewrite ageFactor_points, criticalSymptoms_points, painLevel_points,
      selfReportedSeverity_points, existingConditions_points,
      symptomDuration_points.
    unfold spec_total. lia. }
  split; [exact Htotal|]. split.
  - unfold predictPriority. rewrite determinePriority_bucket, Htotal. reflexivity.
  - destruct (predictPriority data); simpl; auto.
Qed.

Lemma predictPriority_refines_spec_witness :
  totalScore scenario3 = spec_total scenario3
  /\ predictPriority scenario3 = spec_bucket (spec_total scenario3)
  /\ In (predictPriority scenario3) [low; medium; high].
Proof.
  apply (predictPriority_refines_spec scenario3 scenario3).
  vm_compute. reflexivity.
Defined.

(** ** Bucketing *)

(** C2. The bucketing is exact at its thresholds: a total of 75 gives high,
    74 gives medium, 45 gives medium and 44 gives low. *)
Theorem determinePriority_thresholds :
  determinePriority 75 = high
  /\ determinePriority 74 = medium
  /\ determinePriority 45 = medium
  /\ determinePriority 44 = low.
Proof. repeat split. Qed.

(** The three buckets, for any total. *)
Lemma determinePriority_cases score :
  (75 <= score -> determinePriority score = high)
  /\ (45 <= score < 75 -> determinePriority score = medium)
  /\ (score < 45 -> determinePriority score = low).
Proof.
  unfold determinePriority. rewrite !Z.geb_leb.
  destruct (75 <=? score) eqn:H75, (45 <=? score) eqn:H45;
    try apply Z.leb_le in H75; try apply Z.leb_gt in H75;
    try apply Z.leb_le in H45; try apply Z.leb_gt in H45;
    repeat split; intros; try reflexivity; lia.
Qed.


(** ** Range of the total *)

(** Each block adds a multiple of five within its own range. *)
Lemma ageFactor_range data :
  exists k, ageFactor data 0 = 5 * k /\ 0 <= k <= 5.
Proof.
  unfold ageFactor. split_tests;
    [exists 5 | exists 3 | exists 1 | exists 0]; lia.
Qed.


Lemma painLevel_range data :
  exists k, painLevel data 0 = 5 * k /\ 1 <= k <= 5.
Proof.
  unfold painLevel.
  destruct (pain_level data); [exists 1 | exists 3 | exists 5]; lia.
Qed.

Lemma selfReportedSeverity_range data :
  exists k, selfReportedSeverity data 0 = 5 * k /\ 1 <= k <= 7.
Proof.
  unfold selfReportedSeverity.
  destruct (severity_level data); [exists 1 | exists 3 | exists 5 | exists 7]; lia.
Qed.

Lemma existingConditions_range data :
  exists k, existingConditions data 0 = 5 * k /\ 0 <= k <= 4.
Proof.
  unfold existingConditions.
  destruct (truthy (existing_disease data) && strict_neq (existing_disease data) "None");
    [|exists 0; lia].
  destruct (strict_eq (existing_disease data) "Heart Disease"); [exists 4; lia|].
  destruct (strict_eq (existing_disease data) "Diabetes"); [exists 3; lia|].
  destruct (strict_eq (existing_disease data) "Hypertension"); [exists 3; lia|].
  destruct (strict_eq (existing_disease data) "Asthma"); [exists 2; lia|].
  exists 1; lia.
Qed.

Lemma symptomDuration_range data :
  exists k, symptomDuration data 0 = 5 * k /\ 0 <= k <= 2.
Proof.
  unfold symptomDuration. split_tests; [exists 2 | exists 1 | exists 0]; lia.
Qed.



(** Both ends of the range are reached by accepted reports. *)
Lemma totalScore_minimum_reached :
  safeParse scenario2 = Some scenario2 /\ totalScore scenario2 = 10.
Proof. split; vm_compute; reflexivity. Qed.

Lemma totalScore_maximum_reached :
  safeParse worst_case = Some worst_case /\ totalScore worst_case = 180.
Proof. split; vm_compute; reflexivity. Qed.

(** ** Monotonicity *)
















(** The band order of the duration factor is by acuteness: a longer
    duration is a lower band and can lower the total. *)
Remark longer_duration_lowers_total :
  totalScore (set_symptom_duration_days 5 scenario1) < totalScore scenario1.
Proof. vm_compute. reflexivity. Qed.

(** ** Existing disease *)

(** C4. Matching of [existing_disease] is exact and case-sensitive: an
    accepted report whose existing disease is "heart disease" (lowercase)
    gets the generic +5, and a bonus of 20, 15 or 10 is given for exactly
    the strings "Heart Disease", "Diabetes" or "Hypertension", and
    "Asthma". *)
Theorem existingConditions_exact_match raw data score :
  safeParse raw = Some data ->
  (existing_disease data = Some "heart disease" ->
   existingConditions data score = score + 5)
  /\ (existingConditions data score = score + 20
      <-> existing_disease data = Some "Heart Disease")
  /\ (existingConditions data score = score + 15
      <-> existing_disease data = Some "Diabetes"
          \/ existing_disease data = Some "Hypertension")
  /\ (existingConditions data score = score + 10
      <-> existing_disease data = Some "Asthma").
Proof.
  intros _. split.
  { intros H. unfold existingConditions. rewrite H. reflexivity. }
  unfold existingConditions, strict_eq, strict_neq, truthy.
  destruct (existing_disease data) as [s|].
  2:{ simpl. repeat split; intros H; try lia; try discriminate.
      destruct H; discriminate. }
  destruct (s =? "")%string eqn:E0; simpl.
  { apply String.eqb_eq in E0; subst s.
    repeat split; intros H; try lia; try discriminate.
    destruct H; discriminate. }
  destruct (s =? "None")%string eqn:EN; simpl.
  { apply String.eqb_eq in EN; subst s.
    repeat split; intros H; try lia; try discriminate.
    destruct H; discriminate. }
  destruct (s =? "Heart Disease")%string eqn:E1; simpl.
  { apply String.eqb_eq in E1; subst s.
    repeat split; intros H; try reflexivity; try lia; try discriminate.
    destruct H; discriminate. }
  apply String.eqb_neq in E1.
  destruct (s =? "Diabetes")%string eqn:E2; simpl.
  { apply String.eqb_eq in E2; subst s.
    repeat split; intros H; try reflexivity; try lia; try discriminate.
    left; reflexivity. }
  apply String.eqb_neq in E2.
  destruct (s =? "Hypertension")%string eqn:E3; simpl.
  { apply String.eqb_eq in E3; subst s.
    repeat split; intros H; try reflexivity; try lia; try discriminate.
    right; reflexivity. }
  apply String.eqb_neq in E3.
  destruct (s =? "Asthma")%string eqn:E4; simpl.
  { apply String.eqb_eq in E4; subst s.
    repeat split; intros H; try reflexivity; try lia; try discriminate.
    destruct H; discriminate. }
  apply String.eqb_neq in E4.
  repeat split; intros H; try lia.
  - injection H as ->. contradiction.
  - destruct H as [H|H]; injection H as ->; contradiction.
  - injection H as ->. contradiction.
Qed.

Lemma existingConditions_exact_match_witness :
  existingConditions (set_existing_disease (Some "heart disease") scenario1) 0 = 5.
Proof.
  apply (existingConditions_exact_match
           (set_existing_disease (Some "heart disease") scenario1)
           (set_existing_disease (Some "heart disease") scenario1) 0).
  - vm_compute. reflexivity.
  - reflexivity.
Defined.

(** The same mismatch on the whole score: the lowercase spelling costs the
    fifteen points between the named and the generic band. *)
Lemma lowercase_heart_disease_total :
  totalScore scenario1 = 170
  /\ totalScore (set_existing_disease (Some "heart disease") scenario1) = 155.
Proof. split; vm_compute; reflexivity. Qed.

(** An accepted report stays accepted when its existing disease is replaced
    by a string within the length limit; the schema normalises the new
    value. *)
Lemma safeParse_set_existing_disease raw data d :
  safeParse raw = Some data ->
  check_disease d = true ->
  safeParse (set_existing_disease d data)
  = Some (set_existing_disease (transform_disease d) data).
Proof.
  unfold safeParse.
  destruct (check_age (age raw)) eqn:Ha; [|discriminate].
  destruct (check_gender (gender raw)) eqn:Hg; [|discriminate].
  destruct (check_duration (symptom_duration_days raw)) eqn:Hd; [|discriminate].
  destruct (check_disease (existing_disease raw)); [|discriminate].
  simpl. intros [= <-] Hc. simpl.
  rewrite Ha, Hg, Hd, Hc. reflexivity.
Qed.

(** C5. Take an accepted report and replace its existing disease by the
    sentinel "None", by null, or by the empty string: all three are accepted
    by the schema, the existing-disease block adds nothing in any of them,
    and total and priority are the same. *)
Theorem none_sentinel_same_as_null raw data :
  safeParse raw = Some data ->
  let with_none := set_existing_disease (Some "None") data in
  let with_null := set_existing_disease None data in
  let with_empty := set_existing_disease (Some "") data in
  safeParse with_none = Some with_none
  /\ safeParse with_null = Some with_null
  /\ safeParse with_empty = Some with_null
  /\ (forall score,
        existingConditions with_none score = score
        /\ existingConditions with_null score = score
        /\ existingConditions with_empty score = score)
  /\ totalScore with_none = totalScore with_null
  /\ totalScore with_empty = totalScore with_null
  /\ predictPriority with_none = predictPriority with_null
  /\ predictPriority with_empty = predictPriority with_null.
Proof.
  intros H with_none with_null with_empty.
  assert (Htot : totalScore with_none = totalScore with_null
                 /\ totalScore with_empty = totalScore with_null).
  { rewrite !totalScore_sum. split; reflexivity. }
  destruct Htot as [Hn He].
  split; [exact (safeParse_set_existing_disease raw data (Some "None") H eq_refl)|].
  split; [exact (safeParse_set_existing_disease raw data None H eq_refl)|].
  split; [exact (safeParse_set_existing_disease raw data (Some "") H eq_refl)|].
  split; [intros score; repeat split|].
  split; [exact Hn|]. split; [exact He|].
  unfold predictPriority. rewrite Hn, He. split; reflexivity.
Qed.

Lemma none_sentinel_same_as_null_witness :
  predictPriority (set_existing_disease (Some "None") scenario3)
  = predictPriority (set_existing_disease None scenario3).
Proof.
  apply (none_sentinel_same_as_null scenario3 scenario3).
  vm_compute. reflexivity.
Defined.

(** ** Scenario 1 *)

(** C6. The report age 75, "Male", chest pain, breathlessness, no fever,
    severe pain, one day, critical severity, "Heart Disease" is accepted by
    the schema, scores 25+30+25+0+25+35+20+10 = 170, is given priority high,
    and the action is "Proceed to Emergency Ward immediately". *)
Theorem scenario1_high :
  safeParse scenario1 = Some scenario1
  /\ ageFactor scenario1 0 = 25
  /\ criticalSymptoms scenario1 0 = 30 + 25 + 0
  /\ painLevel scenario1 0 = 25
  /\ selfReportedSeverity scenario1 0 = 35
  /\ existingConditions scenario1 0 = 20
  /\ symptomDuration scenario1 0 = 10
  /\ totalScore scenario1 = 170
  /\ predictPriority scenario1 = high
  /\ getActionMessage (predictPriority scenario1)
     = "Proceed to Emergency Ward immediately".
Proof. repeat split; vm_compute; reflexivity. Qed.

(** ** Messages *)

(** C7. [getActionMessage] is the fixed table: high gives "Proceed to
    Emergency Ward immediately", medium "Consult a doctor today", low
    "OPD visit can be scheduled later". *)
Theorem getActionMessage_table :
  getActionMessage high = "Proceed to Emergency Ward immediately"
  /\ getActionMessage medium = "Consult a doctor today"
  /\ getActionMessage low = "OPD visit can be scheduled later".
Proof. repeat split. Qed.

(** Upper-casing the tier names gives LOW, MEDIUM and HIGH. *)
Lemma toUpperCase_priority p : toUpperCase (priority_string p) = spec_upper_name p.
Proof. destruct p; reflexivity. Qed.

(** C8. For every priority and token the notification is the fixed
    eleven-line template: greeting, the assessment line with the upper-case
    tier name, the "Token Number:" line with the token as given, a blank
    line, the action sentence with a full stop, the thanks and the closing
    signature, each paragraph separated by a blank line. For low and
    "T-0042" it is that layout with LOW, T-0042 and the low-priority
    action. *)
Theorem getNotificationMessage_template priority token :
  getNotificationMessage priority token
  = String.concat LF (spec_notification_lines priority token)
  /\ getNotificationMessage low "T-0042"
     = String.concat LF
         [ "Dear Patient,";
           "";
           "Your condition has been assessed as LOW priority.";
           "";
           "Token Number: T-0042";
           "";
           "OPD visit can be scheduled later.";
           "";
           "Thank you for using HealNav.";
           "";
           "– HealNav - Smart Care Patient Priority System" ].
Proof.
  split; [|vm_compute; reflexivity].
  unfold getNotificationMessage, spec_notification_lines.
  rewrite toUpperCase_priority.
  destruct priority; simpl; reflexivity.
Qed.

(** ** Error mapping *)

Lemma lookup_only_code props : lookup "code" (only_code props) = lookup "code" props.
Proof.
  induction props as [|k v rest IH]; simpl; [reflexivity|].
  destruct (k =? "code")%string eqn:E; simpl; rewrite ?E; auto.
Qed.

(** The response is computed from the redacted error alone. *)
Lemma mapErrorToSafeResponse_redact error :
  mapErrorToSafeResponse error = mapErrorToSafeResponse (redact error).
Proof.
  destruct error as [| |b|n|s|zod props]; simpl;
    try reflexivity.
  - unfold mapErrorToSafeResponse; simpl. destruct b; reflexivity.
  - unfold mapErrorToSafeResponse; simpl. destruct (n =? 0); reflexivity.
  - unfold mapErrorToSafeResponse; simpl. destruct (s =? "")%string; reflexivity.
  - unfold mapErrorToSafeResponse, has_property, get_property; simpl.
    rewrite lookup_only_code. reflexivity.
Qed.

(** Every response is one of five fixed pairs of literal and status. *)
Lemma mapErrorToSafeResponse_cases error :
  In (mapErrorToSafeResponse error)
    [ mkSafeResponse "Invalid input data provided. Please check your submission." 400;
      mkSafeResponse "A record with this information already exists" 409;
      mkSafeResponse "Referenced record not found" 400;
      mkSafeResponse "Unable to save patient information. Please try again." 500;
      mkSafeResponse "An error occurred while processing your request" 500 ].
Proof.
  unfold mapErrorToSafeResponse.
  destruct (instanceofZodError error); [simpl; auto|].
  destruct (js_truthy error && typeof_object error && has_property "code" error);
    [|simpl; auto 6].
  cbv zeta.
  destruct (case_label (get_property "code" error) "23505"); [simpl; auto|].
  destruct (case_label (get_property "code" error) "23503"); simpl; auto 6.
Qed.

(** C9. For every error value the message returned by
    [mapErrorToSafeResponse] is one of five fixed literals, none of which
    contains a digit, and it is computed from nothing but the error's class
    and [code]: a [ZodError] gives the invalid-input message with status
    400, a [code] of "23505" the record-exists message with status 409, and
    every other error a generic message with status 400 or 500. The reply
    [serve] builds from it, and the reply for a refused body, carry fixed
    literals as well. *)
Theorem mapErrorToSafeResponse_generic error :
  In (message (mapErrorToSafeResponse error)) generic_messages
  /\ forallb (fun m => negb (has_digit m)) client_messages = true
  /\ mapErrorToSafeResponse error = mapErrorToSafeResponse (redact error)
  /\ (instanceofZodError error = true ->
      mapErrorToSafeResponse error
      = mkSafeResponse
          "Invalid input data provided. Please check your submission." 400)
  /\ (instanceofZodError error = false ->
      get_property "code" error = Some (JsString "23505") ->
      mapErrorToSafeResponse error
      = mkSafeResponse "A record with this information already exists" 409)
  /\ (instanceofZodError error = false ->
      get_property "code" error <> Some (JsString "23505") ->
      status (mapErrorToSafeResponse error) = 400
      \/ status (mapErrorToSafeResponse error) = 500)
  /\ In (message (errorReply (Thrown error))) client_messages
  /\ errorReply ValidationFailed
     = mkSafeResponse
         "Invalid input data. Please check your submission and try again." 400.
Proof.
  assert (Hin : In (message (mapErrorToSafeResponse error)) generic_messages).
  { pose proof (mapErrorToSafeResponse_cases error) as H.
    simpl in H. unfold generic_messages.
    destruct H as [H|[H|[H|[H|[H|[]]]]]]; rewrite <- H; simpl; auto 6. }
  split; [exact Hin|].
  split; [vm_compute; reflexivity|].
  split; [apply mapErrorToSafeResponse_redact|].
  split.
  { intros Hz. unfold mapErrorToSafeResponse. rewrite Hz. reflexivity. }
  split.
  { intros Hz Hc. unfold mapErrorToSafeResponse, has_property.
    rewrite Hz, Hc.
    destruct error; try discriminate. reflexivity. }
  split.
  { intros Hz Hc. unfold mapErrorToSafeResponse. rewrite Hz.
    destruct (js_truthy error && typeof_object error && has_property "code" error);
      [|right; reflexivity].
    cbv zeta.
    destruct (case_label (get_property "code" error) "23505") eqn:E.
    - exfalso. apply Hc. unfold case_label in E.
      destruct (get_property "code" error) as [[| | | |s|]|]; try discriminate.
      apply String.eqb_eq in E. subst s. reflexivity.
    - destruct (case_label (get_property "code" error) "23503");
        [left|right]; reflexivity. }
  split; [|reflexivity].
  simpl. right. exact Hin.
Qed.

Lemma mapErrorToSafeResponse_generic_witness :
  mapErrorToSafeResponse unique_violation
  = mkSafeResponse "A record with this information already exists" 409.
Proof.
  apply (mapErrorToSafeResponse_generic unique_violation); reflexivity.
Defined.

(** * Further properties *)

(** ** White space and trimming *)

Lemma js_length_app s t : js_length (s ++ t) = (js_length s + js_length t)%nat.
Proof. induction s as [|c s IH]; simpl; [reflexivity|]. rewrite IH. lia. Qed.

Lemma string_app_assoc (s t u : string) : (s ++ t) ++ u = s ++ (t ++ u).
Proof. induction s as [|c s IH]; simpl; [reflexivity|]. rewrite IH. reflexivity. Qed.

Lemma string_app_empty (s : string) : s ++ "" = s.
Proof. induction s as [|c s IH]; simpl; [reflexivity|]. rewrite IH. reflexivity. Qed.

(** Stripping removes a non-empty prefix. *)
Lemma strip_space_prefix s r :
  strip_space s = Some r -> exists p, p <> "" /\ s = p ++ r.
Proof.
  unfold strip_space.
  destruct s as [|a [|b [|c s]]]; try discriminate.
  - destruct (is_ascii_space a); [|discriminate].
    intros [= <-]. exists (String a ""). split; [discriminate|reflexivity].
  - destruct (is_ascii_space a).
    { intros [= <-]. exists (String a ""). split; [discriminate|reflexivity]. }
    destruct (is_space2 a b); [|discriminate].
    intros [= <-]. exists (String a (String b "")). split; [discriminate|reflexivity].
  - destruct (is_ascii_space a).
    { intros [= <-]. exists (String a ""). split; [discriminate|reflexivity]. }
    destruct (is_space2 a b).
    { intros [= <-]. exists (String a (String b "")).
      split; [discriminate|reflexivity]. }
    destruct (is_space3 a b c); [|discriminate].
    intros [= <-]. exists (String a (String b (String c ""))).
    split; [discriminate|reflexivity].
Qed.

Lemma string_length_app (s t : string) :
  String.length (s ++ t) = (String.length s + String.length t)%nat.
Proof. induction s as [|c s IH]; simpl; [reflexivity|]. rewrite IH. reflexivity. Qed.

Lemma strip_space_shorter s r :
  strip_space s = Some r -> (String.length r < String.length s)%nat.
Proof.
  intros H. destruct (strip_space_prefix s r H) as (p & Hp & ->).
  rewrite string_length_app. destruct p; [contradiction|simpl; lia].
Qed.

(** What is stripped from the front of a string is stripped from the front
    of any extension of it. *)
Lemma strip_space_app s r q :
  strip_space s = Some r -> strip_space (s ++ q) = Some (r ++ q).
Proof.
  unfold strip_space.
  destruct s as [|a [|b [|c s]]]; simpl; try discriminate.
  - destruct (is_ascii_space a); [|discriminate]. intros [= <-]. reflexivity.
  - destruct (is_ascii_space a); [intros [= <-]; reflexivity|].
    destruct (is_space2 a b); [|discriminate]. intros [= <-].
    destruct q; reflexivity.
  - destruct (is_ascii_space a); [intros [= <-]; reflexivity|].
    destruct (is_space2 a b); [intros [= <-]; reflexivity|].
    destruct (is_space3 a b c); [|discriminate]. intros [= <-]. reflexivity.
Qed.

Lemma trimStart_fuel_stripped n s :
  (String.length s <= n)%nat -> strip_space (trimStart_fuel n s) = None.
Proof.
  revert s. induction n as [|n IH]; intros s Hn; simpl.
  - destruct s; [reflexivity|simpl in Hn; lia].
  - destruct (strip_space s) as [r|] eqn:E; [|exact E].
    apply IH. apply strip_space_shorter in E. lia.
Qed.

(** [trimStart] leaves no white space at the front. *)
Lemma trimStart_stripped s : strip_space (trimStart s) = None.
Proof. apply trimStart_fuel_stripped. lia. Qed.

Lemma trimStart_fuel_fixed n s : strip_space s = None -> trimStart_fuel n s = s.
Proof. intros H. destruct n; simpl; [reflexivity|]. rewrite H. reflexivity. Qed.

Lemma trimStart_fuel_suffix n s : exists p, s = p ++ trimStart_fuel n s.
Proof.
  revert s. induction n as [|n IH]; intros s; simpl.
  - exists "". reflexivity.
  - destruct (strip_space s) as [r|] eqn:E; [|exists ""; reflexivity].
    destruct (strip_space_prefix s r E) as (p & _ & ->).
    destruct (IH r) as (p' & Hp').
    exists (p ++ p'). rewrite string_app_assoc, <- Hp'. reflexivity.
Qed.

Lemma trimStart_fuel_blank n s : trimStart_fuel n s = "" -> Blank s.
Proof.
  revert s. induction n as [|n IH]; intros s; simpl.
  - intros ->. constructor.
  - destruct (strip_space s) as [r|] eqn:E.
    + intros H. apply (Blank_space s r E). apply IH. exact H.
    + intros ->. constructor.
Qed.

Lemma Blank_trimStart_fuel s :
  Blank s -> forall n, (String.length s <= n)%nat -> trimStart_fuel n s = "".
Proof.
  induction 1 as [|s r E _ IH]; intros n Hn.
  - destruct n; reflexivity.
  - pose proof (strip_space_shorter s r E) as Hlt.
    destruct n as [|n]; [lia|]. simpl. rewrite E. apply IH. lia.
Qed.

Lemma is_blank_Blank s : is_blank s = true <-> Blank s.
Proof.
  unfold is_blank, trimStart. split.
  - destruct (trimStart_fuel (String.length s) s) eqn:E; [|discriminate].
    intros _. apply (trimStart_fuel_blank _ _ E).
  - intros H. rewrite (Blank_trimStart_fuel s H) by lia. reflexivity.
Qed.

Lemma Blank_app s q : Blank s -> Blank q -> Blank (s ++ q).
Proof.
  induction 1 as [|s r E _ IH]; intros Hq; simpl; [exact Hq|].
  apply (Blank_space (s ++ q) (r ++ q)).
  - apply strip_space_app. exact E.
  - apply IH. exact Hq.
Qed.

(** [trimEnd] cuts a blank tail off. *)
Lemma trimEnd_prefix s : exists q, Blank q /\ s = trimEnd s ++ q.
Proof.
  induction s as [|c s IH].
  - exists "". split; [constructor|reflexivity].
  - cbn [trimEnd]. destruct (is_blank (String c s)) eqn:E.
    + exists (String c s). split; [apply is_blank_Blank; exact E|reflexivity].
    + destruct IH as (q & Hq & Hs). exists q. split; [exact Hq|].
      simpl. rewrite <- Hs. reflexivity.
Qed.

Lemma trimEnd_idempotent s : trimEnd (trimEnd s) = trimEnd s.
Proof.
  induction s as [|c s IH]; [reflexivity|].
  cbn [trimEnd]. destruct (is_blank (String c s)) eqn:E; [reflexivity|].
  cbn [trimEnd].
  destruct (is_blank (String c (trimEnd s))) eqn:E'.
  - exfalso.
    destruct (trimEnd_prefix s) as (q & Hq & Hs).
    apply is_blank_Blank in E'.
    pose proof (Blank_app _ _ E' Hq) as Hb.
    simpl in Hb. rewrite <- Hs in Hb.
    apply is_blank_Blank in Hb. congruence.
  - rewrite IH. reflexivity.
Qed.

Lemma trimEnd_stripped s : strip_space s = None -> strip_space (trimEnd s) = None.
Proof.
  intros H. destruct (strip_space (trimEnd s)) as [r|] eqn:E; [|reflexivity].
  destruct (trimEnd_prefix s) as (q & _ & Hs).
  apply (strip_space_app _ _ q) in E. rewrite <- Hs in E. congruence.
Qed.

(** [trim] is idempotent. *)
Lemma trim_idempotent s : trim (trim s) = trim s.
Proof.
  unfold trim.
  assert (H : trimStart (trimEnd (trimStart s)) = trimEnd (trimStart s)).
  { apply trimStart_fuel_fixed. apply trimEnd_stripped. apply trimStart_stripped. }
  rewrite H. apply trimEnd_idempotent.
Qed.

(** [trim] never makes a string longer. *)
Lemma trim_js_length s : (js_length (trim s) <= js_length s)%nat.
Proof.
  unfold trim, trimStart.
  destruct (trimStart_fuel_suffix (String.length s) s) as (p & Hp).
  destruct (trimEnd_prefix (trimStart_fuel (String.length s) s)) as (q & _ & Hq).
  rewrite Hp at 3. rewrite Hq at 2. rewrite !js_length_app. lia.
Qed.

(** The trimmed string has no white space at either end. *)
Lemma trim_ends s :
  strip_space (trim s) = None
  /\ (forall u q, trim s = u ++ q -> Blank q -> q = "").
Proof.
  split.
  - unfold trim. apply trimEnd_stripped, trimStart_stripped.
  - unfold trim. generalize (trimStart s) as t. clear s.
    induction t as [|c t IH]; intros u q Hs Hq.
    + destruct u; [simpl in Hs; symmetry; exact Hs|discriminate].
    + cbn [trimEnd] in Hs. destruct (is_blank (String c t)) eqn:E.
      * destruct u; [simpl in Hs; symmetry; exact Hs|discriminate].
      * destruct u as [|c' u].
        -- simpl in Hs. subst q. exfalso.
           destruct (trimEnd_prefix t) as (q' & Hq' & Ht).
           pose proof (Blank_app _ _ Hq Hq') as Hb. simpl in Hb.
           rewrite <- Ht in Hb. apply is_blank_Blank in Hb. congruence.
        -- simpl in Hs. injection Hs as _ Hs. apply (IH u q Hs Hq).
Qed.

(** ** The schema *)

Lemma check_age_range n : check_age n = true <-> 0 <= n <= 150.
Proof.
  unfold check_age. rewrite andb_true_iff, !Z.leb_le. reflexivity.
Qed.

Lemma check_duration_range n : check_duration n = true <-> 0 <= n <= 365.
Proof.
  unfold check_duration. rewrite andb_true_iff, !Z.leb_le. reflexivity.
Qed.

(** Acceptance is the conjunction of the four checks, and the accepted
    report is the body with its existing disease normalised. *)
Lemma safeParse_accepts raw data :
  safeParse raw = Some data <->
  check_age (age raw) = true
  /\ check_gender (gender raw) = true
  /\ check_duration (symptom_duration_days raw) = true
  /\ check_disease (existing_disease raw) = true
  /\ data = set_existing_disease (transform_disease (existing_disease raw)) raw.
Proof.
  unfold safeParse, set_existing_disease.
  destruct (check_age (age raw)), (check_gender (gender raw)),
    (check_duration (symptom_duration_days raw)),
    (check_disease (existing_disease raw)); simpl; split;
    try discriminate;
    try (intros (? & ? & ? & ? & ?); discriminate).
  - intros [= <-]. repeat split.
  - intros (_ & _ & _ & _ & ->). reflexivity.
Qed.

(** X1. What the schema returns is in normal form: age 0..150, duration 0..365,
    a gender of 1..20 code units made of letters and white space, and an
    existing disease that is null or a non-empty string of at most 100 code
    units with no white space at its front or end. *)
Theorem safeParse_normal_form raw data :
  safeParse raw = Some data ->
  0 <= age data <= 150
  /\ 0 <= symptom_duration_days data <= 365
  /\ (1 <= js_length (gender data) <= 20)%nat
  /\ gender_regex (gender data) = true
  /\ match existing_disease data with
     | None => True
     | Some s =>
         s <> ""
         /\ (js_length s <= 100)%nat
         /\ strip_space s = None
         /\ (forall u q, s = u ++ q -> Blank q -> q = "")
     end.
Proof.
  intros H. apply safeParse_accepts in H as (Ha & Hg & Hd & Hc & ->).
  simpl.
  apply check_age_range in Ha. apply check_duration_range in Hd.
  unfold check_gender in Hg. rewrite !andb_true_iff in Hg.
  destruct Hg as [[Hg1 Hg2] Hg3].
  apply Nat.leb_le in Hg1, Hg2.
  repeat split; try lia; try assumption.
  unfold transform_disease.
  destruct (existing_disease raw) as [s|]; [|exact I].
  destruct (trim s =? "")%string eqn:E; [exact I|].
  apply String.eqb_neq in E. simpl in Hc. apply Nat.leb_le in Hc.
  pose proof (trim_js_length s). pose proof (trim_ends s) as [Hs He].
  repeat split; try assumption; try lia.
Qed.

Lemma safeParse_normal_form_witness :
  0 <= age scenario3 <= 150
  /\ 0 <= symptom_duration_days scenario3 <= 365
  /\ (1 <= js_length (gender scenario3) <= 20)%nat
  /\ gender_regex (gender scenario3) = true
  /\ match existing_disease scenario3 with
     | None => True
     | Some s =>
         s <> ""
         /\ (js_length s <= 100)%nat
         /\ strip_space s = None
         /\ (forall u q, s = u ++ q -> Blank q -> q = "")
     end.
Proof.
  apply (safeParse_normal_form
           (set_existing_disease (Some "  Diabetes ") scenario3) scenario3).
  vm_compute. reflexivity.
Defined.

Lemma transform_disease_idempotent d :
  transform_disease (transform_disease d) = transform_disease d.
Proof.
  unfold transform_disease. destruct d as [s|]; [|reflexivity].
  destruct (trim s =? "")%string eqn:E; [reflexivity|].
  rewrite trim_idempotent, E. reflexivity.
Qed.

Lemma check_disease_transform d :
  check_disease d = true -> check_disease (transform_disease d) = true.
Proof.
  unfold check_disease, transform_disease. destruct d as [s|]; [|reflexivity].
  intros H. destruct (trim s =? "")%string; [reflexivity|].
  apply Nat.leb_le in H. apply Nat.leb_le.
  pose proof (trim_js_length s). lia.
Qed.

(** X2. Validation is idempotent: a report the schema returned is accepted
    again, unchanged. *)
Theorem safeParse_idempotent raw data :
  safeParse raw = Some data -> safeParse data = Some data.
Proof.
  intros H. apply safeParse_accepts in H as (Ha & Hg & Hd & Hc & ->).
  apply safeParse_accepts. simpl.
  repeat split; try assumption.
  - apply check_disease_transform. exact Hc.
  - unfold set_existing_disease; simpl.
    rewrite transform_disease_idempotent. reflexivity.
Qed.

Lemma safeParse_idempotent_witness : safeParse scenario3 = Some scenario3.
Proof.
  apply (safeParse_idempotent
           (set_existing_disease (Some "  Diabetes ") scenario3) scenario3).
  vm_compute. reflexivity.
Defined.

(** X3. A body outside the ranges is refused: a negative or too large age or
    duration, an empty gender, a gender of more than 20 code units, or an
    existing disease of more than 100. *)
Theorem safeParse_refuses raw :
  age raw < 0 \/ 150 < age raw
  \/ symptom_duration_days raw < 0 \/ 365 < symptom_duration_days raw
  \/ gender raw = ""
  \/ (20 < js_length (gender raw))%nat
  \/ (exists s, existing_disease raw = Some s /\ (100 < js_length s)%nat) ->
  safeParse raw = None.
Proof.
  intros H. destruct (safeParse raw) as [data|] eqn:E; [|reflexivity].
  exfalso. apply safeParse_accepts in E as (Ha & Hg & Hd & Hc & _).
  apply check_age_range in Ha. apply check_duration_range in Hd.
  unfold check_gender in Hg. rewrite !andb_true_iff in Hg.
  destruct Hg as [[Hg1 Hg2] Hg3]. apply Nat.leb_le in Hg1, Hg2.
  destruct H as [H|[H|[H|[H|[H|[H|(s & Hs & H)]]]]]]; try lia.
  - rewrite H in Hg1. simpl in Hg1. lia.
  - rewrite Hs in Hc. simpl in Hc. apply Nat.leb_le in Hc. lia.
Qed.

Lemma safeParse_refuses_witness : safeParse (set_age 151 scenario1) = None.
Proof.
  apply safeParse_refuses. right. left. simpl. lia.
Defined.

(** X4. White space around the existing disease is ignored: the body is
    accepted and normalised exactly as with the trimmed string, and a
    disease of white space only counts as null. *)
Theorem safeParse_ignores_padding raw s :
  (js_length s <= 100)%nat ->
  safeParse (set_existing_disease (Some s) raw)
  = safeParse (set_existing_disease (Some (trim s)) raw)
  /\ (Blank s ->
      safeParse (set_existing_disease (Some s) raw)
      = safeParse (set_existing_disease None raw)).
Proof.
  intros Hlen.
  assert (Hc : (js_length (trim s) <=? 100)%nat = true).
  { apply Nat.leb_le. pose proof (trim_js_length s). lia. }
  apply Nat.leb_le in Hlen.
  split.
  - unfold safeParse; simpl. rewrite Hlen, Hc, trim_idempotent. reflexivity.
  - intros Hb. unfold safeParse; simpl. rewrite Hlen.
    assert (Ht : trim s = "").
    { unfold trim, trimStart. rewrite (Blank_trimStart_fuel s Hb) by lia.
      reflexivity. }
    rewrite Ht. reflexivity.
Qed.

Lemma safeParse_ignores_padding_witness :
  safeParse (set_existing_disease (Some "  Asthma  ") scenario2)
  = safeParse (set_existing_disease (Some (trim "  Asthma  ")) scenario2).
Proof.
  apply (safeParse_ignores_padding scenario2 "  Asthma  ").
  simpl. lia.
Defined.

(** ** The form *)

(** X5. Whatever the form can submit with in-range whole numbers is accepted by
    the schema, unchanged: each gender and existing-condition option passes
    the checks and is already trimmed. *)
Theorem form_submission_accepted raw :
  In (gender raw) genderOptions ->
  existing_disease raw = None
  \/ (exists s, In s diseaseOptions /\ existing_disease raw = Some s) ->
  0 <= age raw <= 150 ->
  0 <= symptom_duration_days raw <= 365 ->
  safeParse raw = Some raw.
Proof.
  intros Hg Hd Ha Hs.
  apply check_age_range in Ha. apply check_duration_range in Hs.
  destruct raw as [a g cp br fv pl d sl ed]; simpl in *.
  unfold safeParse; simpl. rewrite Ha, Hs.
  assert (Hcg : check_gender g = true).
  { destruct Hg as [<-|[<-|[<-|[]]]]; reflexivity. }
  rewrite Hcg; simpl.
  destruct Hd as [->|(s & Hin & ->)]; [reflexivity|].
  destruct Hin as [<-|[<-|[<-|[<-|[<-|[<-|[]]]]]]]; reflexivity.
Qed.

Lemma form_submission_accepted_witness :
  safeParse (set_existing_disease (Some "Other") scenario1)
  = Some (set_existing_disease (Some "Other") scenario1).
Proof.
  apply form_submission_accepted.
  - simpl. auto.
  - right. exists "Other". split; [simpl; auto 7|reflexivity].
  - simpl. lia.
  - simpl. lia.
Defined.

(** ** The request handler *)

(** The statuses and messages of the error mapping. *)
Lemma mapErrorToSafeResponse_status error :
  In (message (mapErrorToSafeResponse error)) client_messages
  /\ (status (mapErrorToSafeResponse error) = 400
      \/ status (mapErrorToSafeResponse error) = 409
      \/ status (mapErrorToSafeResponse error) = 500).
Proof.
  pose proof (mapErrorToSafeResponse_cases error) as H. simpl in H.
  unfold client_messages, generic_messages.
  destruct H as [H|[H|[H|[H|[H|[]]]]]]; rewrite <- H; simpl; auto 8.
Qed.

(** Splits on every step of the handler. *)
Ltac serve_cases supabase req :=
  unfold serve, serve_try;
  destruct (method req =? "OPTIONS")%string eqn:?;
  [| destruct (createClient supabase) as [[]|?] eqn:?;
     [ destruct (json req) as [[?|]|?] eqn:?;
       [ cbn [safeParse_body];
         match goal with
         | |- context [safeParse ?r] => destruct (safeParse r) eqn:?
         end;
         [ destruct (generate_token_number supabase) eqn:?;
           [ match goal with
             | |- context [insert_patient supabase ?r] =>
                 destruct (insert_patient supabase r) eqn:?
             end
           | ]
         | ]
       | cbn [safeParse_body]
       | ]
     | ] ].

(** X6. Every reply carries the two CORS headers, and its status, body and
    message go together: 200 with no body (preflight) or with the result,
    otherwise 400, 409 or 500 with one of the six fixed messages. *)
Theorem serve_reply_shape supabase req :
  incl corsHeaders (headers (fst (serve supabase req)))
  /\ match body (fst (serve supabase req)) with
     | null_body => http_status (fst (serve supabase req)) = 200
     | result_body _ _ _ _ _ => http_status (fst (serve supabase req)) = 200
     | error_body error =>
         In error client_messages
         /\ (http_status (fst (serve supabase req)) = 400
             \/ http_status (fst (serve supabase req)) = 409
             \/ http_status (fst (serve supabase req)) = 500)
     end.
Proof.
  assert (Hj : incl corsHeaders jsonHeaders).
  { unfold jsonHeaders. apply incl_appl. apply incl_refl. }
  serve_cases supabase req; cbn [fst headers body http_status];
    (split; [first [exact Hj | apply incl_refl]|]);
    try reflexivity;
    try apply mapErrorToSafeResponse_status;
    (split; [left; reflexivity | left; reflexivity]).
Qed.

(** X7. A result is sent only after the row was stored: the body was accepted
    by the schema, the token came from the generator, the insert succeeded,
    and the priority, token and id of the reply are those of the stored
    row. *)
Theorem serve_result_stored supabase req p a m t pid :
  body (fst (serve supabase req)) = result_body p a m t pid ->
  exists raw data row,
    json req = normal (typed_body raw)
    /\ safeParse raw = Some data
    /\ p = predictPriority data
    /\ a = getActionMessage p
    /\ m = getNotificationMessage p t
    /\ generate_token_number supabase = fulfilled t
    /\ insert_patient supabase row = fulfilled pid
    /\ snd (serve supabase req) = [rpc_call; insert_call row]
    /\ PatientRow.ai_priority row = p
    /\ PatientRow.token_number row = t
    /\ PatientRow.status row = waiting.
Proof.
  serve_cases supabase req; cbn [fst snd body]; try discriminate.
  intros [= <- <- <- <- <-].
  eexists _, _, _. repeat split; try eassumption; reflexivity.
Qed.

(** X8. Every row the handler inserts comes from a body the schema accepted:
    it holds the normalised fields, the predicted priority, the generated
    token and the status waiting, and the token was requested first. *)
Theorem serve_inserts_validated supabase req row :
  In (insert_call row) (snd (serve supabase req)) ->
  exists raw data,
    json req = normal (typed_body raw)
    /\ safeParse raw = Some data
    /\ 0 <= PatientRow.age row <= 150
    /\ 0 <= PatientRow.symptom_duration_days row <= 365
    /\ PatientRow.existing_disease row <> Some ""
    /\ PatientRow.age row = age data
    /\ PatientRow.gender row = gender data
    /\ PatientRow.chest_pain row = chest_pain data
    /\ PatientRow.breathlessness row = breathlessness data
    /\ PatientRow.fever row = fever data
    /\ PatientRow.pain_level row = pain_level data
    /\ PatientRow.symptom_duration_days row = symptom_duration_days data
    /\ PatientRow.self_reported_severity row = severity_level data
    /\ PatientRow.existing_disease row = existing_disease data
    /\ PatientRow.ai_priority row = predictPriority data
    /\ PatientRow.status row = waiting
    /\ generate_token_number supabase = fulfilled (PatientRow.token_number row)
    /\ snd (serve supabase req) = [rpc_call; insert_call row].
Proof.
  serve_cases supabase req; cbn [fst snd]; simpl;
    try (intros []; fail);
    try (intros [H|[]]; discriminate).
  - intros [H|[[= <-]|[]]]; [discriminate|].
    match goal with
    | H : safeParse _ = Some _ |- _ =>
        pose proof (safeParse_ranges _ _ H) as (Ha & Hd & He)
    end.
    eexists _, _. cbn.
    repeat split; try eassumption; try reflexivity; lia.
  - intros [H|[[= <-]|[]]]; [discriminate|].
    match goal with
    | H : safeParse _ = Some _ |- _ =>
        pose proof (safeParse_ranges _ _ H) as (Ha & Hd & He)
    end.
    eexists _, _. cbn.
    repeat split; try eassumption; try reflexivity; lia.
Qed.

Lemma serve_result_stored_witness :
  exists raw data row,
    json post_scenario1 = normal (typed_body raw)
    /\ safeParse raw = Some data
    /\ high = predictPriority data
    /\ "Proceed to Emergency Ward immediately" = getActionMessage high
    /\ getNotificationMessage high "T-0042" = getNotificationMessage high "T-0042"
    /\ generate_token_number supabase_ok = fulfilled "T-0042"
    /\ insert_patient supabase_ok row = fulfilled "7f3c2a9e"
    /\ snd (serve supabase_ok post_scenario1) = [rpc_call; insert_call row]
    /\ PatientRow.ai_priority row = high
    /\ PatientRow.token_number row = "T-0042"
    /\ PatientRow.status row = waiting.
Proof.
  apply (serve_result_stored supabase_ok post_scenario1 high
           "Proceed to Emergency Ward immediately"
           (getNotificationMessage high "T-0042") "T-0042" "7f3c2a9e").
  vm_compute. reflexivity.
Defined.

Lemma serve_inserts_validated_witness :
  exists raw data,
    json post_scenario1 = normal (typed_body raw)
    /\ safeParse raw = Some data
    /\ 0 <= PatientRow.age row_scenario1 <= 150
    /\ 0 <= PatientRow.symptom_duration_days row_scenario1 <= 365
    /\ PatientRow.existing_disease row_scenario1 <> Some ""
    /\ PatientRow.age row_scenario1 = age data
    /\ PatientRow.gender row_scenario1 = gender data
    /\ PatientRow.chest_pain row_scenario1 = chest_pain data
    /\ PatientRow.breathlessness row_scenario1 = breathlessness data
    /\ PatientRow.fever row_scenario1 = fever data
    /\ PatientRow.pain_level row_scenario1 = pain_level data
    /\ PatientRow.symptom_duration_days row_scenario1 = symptom_duration_days data
    /\ PatientRow.self_reported_severity row_scenario1 = severity_level data
    /\ PatientRow.existing_disease row_scenario1 = existing_disease data
    /\ PatientRow.ai_priority row_scenario1 = predictPriority data
    /\ PatientRow.status row_scenario1 = waiting
    /\ generate_token_number supabase_duplicate
       = fulfilled (PatientRow.token_number row_scenario1)
    /\ snd (serve supabase_duplicate post_scenario1)
       = [rpc_call; insert_call row_scenario1].
Proof.
  apply (serve_inserts_validated supabase_duplicate post_scenario1 row_scenario1).
  vm_compute. right. left. reflexivity.
Defined.

(** X9. No collaborator is called for a preflight, an unreadable body or a
    body the schema refuses: any call means the request was not OPTIONS and
    its body was accepted. *)
Theorem serve_calls_after_validation supabase req call :
  In call (snd (serve supabase req)) ->
  (method req =? "OPTIONS")%string = false
  /\ createClient supabase = normal tt
  /\ exists raw data,
       json req = normal (typed_body raw) /\ safeParse raw = Some data.
Proof.
  serve_cases supabase req; cbn [fst snd]; simpl;
    try (intros []; fail);
    intros _; (split; [reflexivity|]); (split; [reflexivity|]);
    eexists _, _; split; eassumption || reflexivity.
Qed.

Lemma serve_calls_after_validation_witness :
  (method post_scenario1 =? "OPTIONS")%string = false
  /\ createClient supabase_ok = normal tt
  /\ exists raw data,
       json post_scenario1 = normal (typed_body raw)
       /\ safeParse raw = Some data.
Proof.
  apply (serve_calls_after_validation supabase_ok post_scenario1 rpc_call).
  vm_compute. left. reflexivity.
Defined.

(** X10. When a row was sent for insertion and the reply is an error, the
    insert failed after the token had been generated, the reply is the
    mapping of the database error, and a unique-constraint violation
    (code "23505") is answered with 409 and the record-exists message. *)
Theorem serve_insert_failure supabase req row msg :
  In (insert_call row) (snd (serve supabase req)) ->
  body (fst (serve supabase req)) = error_body msg ->
  exists error,
    insert_patient supabase row = failed error
    /\ generate_token_number supabase = fulfilled (PatientRow.token_number row)
    /\ msg = message (mapErrorToSafeResponse (JsObject false error))
    /\ http_status (fst (serve supabase req))
       = status (mapErrorToSafeResponse (JsObject false error))
    /\ (lookup "code" error = Some (JsString "23505") ->
        http_status (fst (serve supabase req)) = 409
        /\ msg = "A record with this information already exists").
Proof.
  serve_cases supabase req; cbn [fst snd body http_status]; simpl;
    try (intros []; fail);
    try (intros [H|[]]; discriminate).
  intros [H|[[= <-]|[]]]; [discriminate|]. intros [= <-].
  eexists. cbn.
  split; [eassumption|]. split; [reflexivity|].
  split; [reflexivity|]. split; [reflexivity|].
  intros Hc. unfold mapErrorToSafeResponse, has_property, get_property.
  simpl. rewrite Hc. simpl. split; reflexivity.
Qed.

Lemma serve_insert_failure_witness :
  http_status (fst (serve supabase_duplicate post_scenario1)) = 409.
Proof.
  assert (Hin : In (insert_call row_scenario1)
                  (snd (serve supabase_duplicate post_scenario1))).
  { vm_compute. right. left. reflexivity. }
  assert (Hb : body (fst (serve supabase_duplicate post_scenario1))
               = error_body "A record with this information already exists").
  { vm_compute. reflexivity. }
  destruct (serve_insert_failure supabase_duplicate post_scenario1 row_scenario1
              "A record with this information already exists" Hin Hb)
    as (error & Hi & _ & _ & _ & H).
  apply H. vm_compute in Hi. injection Hi as <-. reflexivity.
Defined.

(** X11. The whole table of [mapErrorToSafeResponse], read off the error: a
    ZodError; otherwise an object with a [code] that is the string "23505",
    the string "23503", or anything else (a number 23505 included);
    otherwise any value without [code], null and primitives included. *)
Theorem mapErrorToSafeResponse_table error :
  (instanceofZodError error = true ->
   mapErrorToSafeResponse error
   = mkSafeResponse
       "Invalid input data provided. Please check your submission." 400)
  /\ (instanceofZodError error = false ->
      forall s, get_property "code" error = Some (JsString s) ->
        mapErrorToSafeResponse error
        = if (s =? "23505")%string then
            mkSafeResponse "A record with this information already exists" 409
          else if (s =? "23503")%string then
            mkSafeResponse "Referenced record not found" 400
          else
            mkSafeResponse
              "Unable to save patient information. Please try again." 500)
  /\ (instanceofZodError error = false ->
      forall v, get_property "code" error = Some v ->
        (forall s, v <> JsString s) ->
        mapErrorToSafeResponse error
        = mkSafeResponse
            "Unable to save patient information. Please try again." 500)
  /\ (instanceofZodError error = false ->
      get_property "code" error = None ->
      mapErrorToSafeResponse error
      = mkSafeResponse "An error occurred while processing your request" 500).
Proof.
  unfold mapErrorToSafeResponse, has_property.
  repeat split.
  - intros ->. reflexivity.
  - intros -> s Hc. rewrite Hc.
    destruct error; try discriminate. simpl. reflexivity.
  - intros -> v Hc Hv. rewrite Hc.
    destruct error; try discriminate. simpl.
    destruct v; try reflexivity. exfalso. apply (Hv s). reflexivity.
  - intros -> Hc. rewrite Hc. rewrite andb_false_r. reflexivity.
Qed.

Lemma mapErrorToSafeResponse_table_witness :
  mapErrorToSafeResponse
    (JsObject false (property "code" (JsNumber 23505) no_property))
  = mkSafeResponse "Unable to save patient information. Please try again." 500.
Proof.
  apply (mapErrorToSafeResponse_table
           (JsObject false (property "code" (JsNumber 23505) no_property)))
    with (v := JsNumber 23505).
  - reflexivity.
  - reflexivity.
  - intros s. discriminate.
Defined.

(** ** The dashboard queue *)

(** *** Sorting with a comparator that is a total preorder *)

Section ArraySortFacts.
Variable A : Type.
Variable comparefn : A -> A -> Z.

Let before (x y : A) : Prop := comparefn x y <= 0.

Hypothesis before_total : forall x y, before x y \/ before y x.
Hypothesis before_trans : forall x y z, before x y -> before y z -> before x z.

Lemma sort_insert_perm x l : Permutation (x :: l) (sort_insert comparefn x l).
Proof.
  induction l as [|y l IH]; simpl; [apply Permutation_refl|].
  destruct (comparefn x y <=? 0); [apply Permutation_refl|].
  apply perm_trans with (y :: x :: l); [apply perm_swap|].
  apply perm_skip. exact IH.
Qed.

Lemma Array_sort_perm l : Permutation l (Array_sort comparefn l).
Proof.
  induction l as [|x l IH]; simpl; [apply perm_nil|].
  apply perm_trans with (x :: Array_sort comparefn l).
  - apply perm_skip. exact IH.
  - apply sort_insert_perm.
Qed.

Lemma sort_insert_sorted x l :
  StronglySorted before l -> StronglySorted before (sort_insert comparefn x l).
Proof.
  induction 1 as [|y l Hl IH Hy]; simpl.
  - constructor; constructor.
  - destruct (comparefn x y <=? 0) eqn:E.
    + apply Z.leb_le in E.
      constructor; [constructor; assumption|].
      constructor; [exact E|].
      eapply Forall_impl; [|exact Hy].
      intros z Hz. apply (before_trans x y z); assumption.
    + apply Z.leb_gt in E.
      constructor; [exact IH|].
      apply (Permutation_Forall (sort_insert_perm x l)).
      constructor; [|exact Hy].
      destruct (before_total x y) as [H|H]; [unfold before in H; lia|exact H].
Qed.

Lemma Array_sort_sorted l : StronglySorted before (Array_sort comparefn l).
Proof.
  induction l as [|x l IH]; simpl; [constructor|].
  apply sort_insert_sorted. exact IH.
Qed.

(** Inserting in front of a list whose members all come after. *)
Lemma sort_insert_front x l :
  Forall (before x) l -> sort_insert comparefn x l = x :: l.
Proof.
  intros H. destruct l as [|y l]; simpl; [reflexivity|].
  inversion H as [|? ? Hy _]; subst.
  apply Z.leb_le in Hy. rewrite Hy. reflexivity.
Qed.

(** Sorting a sorted list with one more element at its end puts that
    element after everything that compares at most equal to it and leaves
    the rest as it was. *)
Lemma Array_sort_snoc l x :
  StronglySorted before l ->
  exists l1 l2,
    l = (l1 ++ l2)%list
    /\ Array_sort comparefn (l ++ [x])%list = (l1 ++ x :: l2)%list
    /\ Forall (fun y => comparefn y x <= 0) l1
    /\ Forall (fun y => 0 < comparefn y x) l2.
Proof.
  induction 1 as [|y l Hl IH Hy].
  - exists [], []. simpl. repeat split; constructor.
  - destruct IH as (l1 & l2 & -> & Hs & H1 & H2).
    simpl. rewrite Hs.
    destruct l1 as [|z l1]; simpl.
    + destruct (comparefn y x <=? 0) eqn:E.
      * apply Z.leb_le in E. exists [y], l2. simpl.
        repeat split; [constructor; [exact E|constructor]|exact H2].
      * apply Z.leb_gt in E. exists [], (y :: l2). simpl.
        rewrite (sort_insert_front y l2 Hy).
        repeat split; [constructor|constructor; assumption].
    + assert (Hyz : comparefn y z <= 0).
      { inversion Hy; subst. assumption. }
      apply Z.leb_le in Hyz. rewrite Hyz.
      exists (y :: z :: l1), l2. simpl.
      repeat split; [|exact H2].
      constructor; [|exact H1].
      inversion H1; subst. apply Z.leb_le in Hyz.
      apply (before_trans y z x); assumption.
Qed.

End ArraySortFacts.

(** *** The comparator of the queue *)

Lemma priorityOrder_inj p q : priorityOrder p = priorityOrder q -> p = q.
Proof. destruct p, q; simpl; intros H; try reflexivity; lia. Qed.

(** The comparator puts [a] first or level with [b] exactly when [a] has
    the higher priority, or the same priority and is at least as new. *)
Lemma compareFn_queue_order a b : compareFn a b <= 0 <-> queue_order a b.
Proof.
  unfold compareFn, queue_order.
  set (pa := or_low (DashboardPatient.ai_priority a)).
  set (pb := or_low (DashboardPatient.ai_priority b)).
  destruct (priorityOrder pa - priorityOrder pb =? 0) eqn:E; simpl.
  - apply Z.eqb_eq in E.
    assert (pa = pb) by (apply priorityOrder_inj; lia).
    split; [intros; right; split; [assumption|lia]|].
    intros [H'|[_ H']]; lia.
  - apply Z.eqb_neq in E. split; [intros; left; lia|].
    intros [H|[H _]]; [lia|]. rewrite H in E. lia.
Qed.

Lemma compareFn_total a b : compareFn a b <= 0 \/ compareFn b a <= 0.
Proof.
  unfold compareFn.
  set (pa := priorityOrder (or_low (DashboardPatient.ai_priority a))).
  set (pb := priorityOrder (or_low (DashboardPatient.ai_priority b))).
  destruct (Z.eqb_spec (pa - pb) 0), (Z.eqb_spec (pb - pa) 0); simpl; lia.
Qed.

Lemma compareFn_trans a b c :
  compareFn a b <= 0 -> compareFn b c <= 0 -> compareFn a c <= 0.
Proof.
  rewrite !compareFn_queue_order. unfold queue_order.
  intros [H1|[H1 H1']] [H2|[H2 H2']].
  - left; lia.
  - left. rewrite <- H2. exact H1.
  - left. rewrite H1. exact H2.
  - right. split; [congruence|lia].
Qed.

Lemma StronglySorted_weaken {A} (R S : A -> A -> Prop) l :
  (forall x y, R x y -> S x y) -> StronglySorted R l -> StronglySorted S l.
Proof.
  intros HRS. induction 1 as [|x l Hl IH Hx]; constructor; [exact IH|].
  eapply Forall_impl; [|exact Hx]. intros y. apply HRS.
Qed.

(** Sorting with the queue comparator rearranges the rows into queue
    order. *)
Lemma Array_sort_queue l :
  Permutation l (Array_sort compareFn l)
  /\ StronglySorted queue_order (Array_sort compareFn l).
Proof.
  split; [apply Array_sort_perm|].
  apply StronglySorted_weaken with (R := fun x y => compareFn x y <= 0).
  - intros x y. apply compareFn_queue_order.
  - apply Array_sort_sorted; [exact compareFn_total|exact compareFn_trans].
Qed.

(** X12. The list [fetchPatients] stores holds the fetched rows, each once, in
    queue order: by priority with high first and a missing priority counted
    as low, then newest first. *)
Theorem fetchPatients_sorted_queue data :
  Permutation data (fetchPatients_sorted data)
  /\ StronglySorted queue_order (fetchPatients_sorted data).
Proof. unfold fetchPatients_sorted. apply Array_sort_queue. Qed.

Lemma filter_length_perm {A} (f : A -> bool) l l' :
  Permutation l l' ->
  List.length (filter f l) = List.length (filter f l').
Proof.
  induction 1 as [|x l l' _ IH|x y l|l l' l'' _ IH1 _ IH2]; simpl.
  - reflexivity.
  - destruct (f x); simpl; rewrite IH; reflexivity.
  - destruct (f x), (f y); reflexivity.
  - rewrite IH1. exact IH2.
Qed.

(** The counters do not depend on the order of the rows. *)
Lemma stats_perm l l' : Permutation l l' -> stats l = stats l'.
Proof.
  intros H. unfold stats.
  rewrite (Permutation_length H), (filter_length_perm is_high l l' H),
    (filter_length_perm is_waiting l l' H).
  reflexivity.
Qed.

(** A queue in order is its high-priority rows followed by the others. *)
Lemma queue_high_first q :
  StronglySorted queue_order q ->
  q = (filter is_high q ++ filter (fun p => negb (is_high p)) q)%list.
Proof.
  induction 1 as [|x q Hq IH Hx]; [reflexivity|].
  simpl. destruct (is_high x) eqn:E; simpl.
  - rewrite <- IH. reflexivity.
  - assert (Hnone : Forall (fun p => is_high p = false) q).
    { eapply Forall_impl; [|exact Hx]. intros y Hy.
      unfold is_high in *. unfold queue_order in Hy.
      destruct (DashboardPatient.ai_priority x) as [[]|], (DashboardPatient.ai_priority y) as [[]|];
        simpl in *; try reflexivity; try discriminate;
        destruct Hy as [Hy|[Hy _]]; try lia; discriminate. }
    assert (Hf : filter is_high q = []).
    { clear -Hnone. induction Hnone as [|y q Hy _ IHq]; simpl; [reflexivity|].
      rewrite Hy. exact IHq. }
    assert (Hg : filter (fun p => negb (is_high p)) q = q).
    { clear -Hnone. induction Hnone as [|y q Hy _ IHq]; simpl; [reflexivity|].
      rewrite Hy. simpl. rewrite IHq. reflexivity. }
    rewrite Hf, Hg. reflexivity.
Qed.

Lemma firstn_skipn_app {A} (l1 l2 : list A) :
  firstn (List.length l1) (l1 ++ l2) = l1
  /\ skipn (List.length l1) (l1 ++ l2) = l2.
Proof.
  induction l1 as [|x l1 [IH1 IH2]]; simpl; [split; reflexivity|].
  rewrite IH1. split; [reflexivity|exact IH2].
Qed.

(** X13. In the fetched queue the high-priority patients fill exactly the first
    [stats.high] places: every row above that mark is high priority and no
    row below it is. *)
Theorem fetchPatients_high_on_top data :
  let queue := fetchPatients_sorted data in
  let n := high_count (stats data) in
  Forall (fun p => is_high p = true) (firstn n queue)
  /\ Forall (fun p => is_high p = false) (skipn n queue).
Proof.
  intros queue n.
  destruct (Array_sort_queue data) as [Hperm Hsorted].
  change (Array_sort compareFn data) with queue in Hperm, Hsorted.
  assert (Hn : n = List.length (filter is_high queue)).
  { unfold n. rewrite (stats_perm data queue Hperm). reflexivity. }
  pose proof (queue_high_first queue Hsorted) as Hq.
  destruct (firstn_skipn_app (filter is_high queue)
              (filter (fun p => negb (is_high p)) queue)) as [H1 H2].
  rewrite <- Hq, <- Hn in H1, H2. rewrite H1, H2.
  split; apply Forall_forall; intros p Hp; apply filter_In in Hp as [_ Hp].
  - exact Hp.
  - apply negb_true_iff. exact Hp.
Qed.

(** X14. An INSERT event on a queue that is in order puts the new patient
    after every row that compares at most equal to it and before every row
    that compares greater; the rows already listed keep their order, and
    the queue stays in order. *)
Theorem onInsert_places newPatient prev :
  StronglySorted queue_order prev ->
  exists above below,
    prev = (above ++ below)%list
    /\ onInsert newPatient prev = (above ++ newPatient :: below)%list
    /\ Forall (fun p => queue_order p newPatient) above
    /\ Forall (fun p => ~ queue_order p newPatient) below
    /\ StronglySorted queue_order (onInsert newPatient prev).
Proof.
  intros Hs.
  assert (Hs' : StronglySorted (fun x y => compareFn x y <= 0) prev).
  { apply StronglySorted_weaken with (R := queue_order); [|exact Hs].
    intros x y. apply compareFn_queue_order. }
  destruct (Array_sort_snoc _ compareFn compareFn_trans prev newPatient Hs')
    as (l1 & l2 & Hp & Hsort & H1 & H2).
  exists l1, l2. unfold onInsert. cbv zeta.
  split; [exact Hp|]. split; [exact Hsort|].
  split; [|split].
  - eapply Forall_impl; [|exact H1]. intros p. apply compareFn_queue_order.
  - eapply Forall_impl; [|exact H2]. intros p Hp' Hq.
    cbv beta in Hp'. apply compareFn_queue_order in Hq. lia.
  - apply Array_sort_queue.
Qed.

Lemma onInsert_places_witness :
  exists above below,
    [patient_high; patient_low] = (above ++ below)%list
    /\ onInsert patient_medium [patient_high; patient_low]
       = (above ++ patient_medium :: below)%list
    /\ Forall (fun p => queue_order p patient_medium) above
    /\ Forall (fun p => ~ queue_order p patient_medium) below
    /\ StronglySorted queue_order
         (onInsert patient_medium [patient_high; patient_low]).
Proof.
  apply (onInsert_places patient_medium [patient_high; patient_low]).
  repeat constructor; unfold queue_order; simpl; lia.
Defined.

(** X15. An UPDATE event keeps the rows where they are: the ids are the same in
    the same order, every row is either the new version or an untouched row
    with another id, and an event for an id that is not listed changes
    nothing. *)
Theorem onUpdate_keeps_rows payload_new prev :
  map DashboardPatient.id (onUpdate payload_new prev) = map DashboardPatient.id prev
  /\ Forall (fun p => p = payload_new
                      \/ (In p prev /\ DashboardPatient.id p <> DashboardPatient.id payload_new))
       (onUpdate payload_new prev)
  /\ (~ In (DashboardPatient.id payload_new) (map DashboardPatient.id prev) ->
      onUpdate payload_new prev = prev).
Proof.
  unfold onUpdate. induction prev as [|p prev (IH1 & IH2 & IH3)]; simpl.
  - repeat split. constructor.
  - destruct (String.eqb_spec (DashboardPatient.id p) (DashboardPatient.id payload_new)) as [E|E].
    + split; [rewrite IH1, E; reflexivity|]. split.
      * constructor; [left; reflexivity|].
        eapply Forall_impl; [|exact IH2].
        intros q [Hq|[Hq Hn]]; [left; exact Hq|right; split; [right; exact Hq|exact Hn]].
      * intros Hn. exfalso. apply Hn. left. exact E.
    + split; [rewrite IH1; reflexivity|]. split.
      * constructor; [right; split; [left; reflexivity|exact E]|].
        eapply Forall_impl; [|exact IH2].
        intros q [Hq|[Hq Hn]]; [left; exact Hq|right; split; [right; exact Hq|exact Hn]].
      * intros Hn. rewrite IH3; [reflexivity|].
        intros Hin. apply Hn. right. exact Hin.
Qed.

Lemma onUpdate_keeps_rows_witness :
  onUpdate patient_medium [patient_high; patient_low]
  = [patient_high; patient_low].
Proof.
  apply (onUpdate_keeps_rows patient_medium [patient_high; patient_low]).
  simpl. intros [H|[H|[]]]; discriminate.
Defined.

Lemma queue_order_keys a a' b b' :
  DashboardPatient.ai_priority a' = DashboardPatient.ai_priority a ->
  DashboardPatient.created_at a' = DashboardPatient.created_at a ->
  DashboardPatient.ai_priority b' = DashboardPatient.ai_priority b ->
  DashboardPatient.created_at b' = DashboardPatient.created_at b ->
  queue_order a b -> queue_order a' b'.
Proof. unfold queue_order. intros -> -> -> ->. exact (fun H => H). Qed.

(** X16. An UPDATE event that leaves priority and creation time of the row as
    they were, as a change of status does, keeps the queue in order. *)
Theorem onUpdate_keeps_order payload_new prev :
  StronglySorted queue_order prev ->
  (forall p, In p prev -> DashboardPatient.id p = DashboardPatient.id payload_new ->
     DashboardPatient.ai_priority payload_new = DashboardPatient.ai_priority p
     /\ DashboardPatient.created_at payload_new = DashboardPatient.created_at p) ->
  StronglySorted queue_order (onUpdate payload_new prev).
Proof.
  unfold onUpdate.
  set (f := fun p => if (DashboardPatient.id p =? DashboardPatient.id payload_new)%string
                     then payload_new else p).
  intros Hs Hk.
  assert (Hf : forall p, In p prev ->
             DashboardPatient.ai_priority (f p) = DashboardPatient.ai_priority p
             /\ DashboardPatient.created_at (f p) = DashboardPatient.created_at p).
  { intros p Hp. unfold f.
    destruct (String.eqb_spec (DashboardPatient.id p) (DashboardPatient.id payload_new)) as [E|E];
      [apply Hk; assumption|split; reflexivity]. }
  clear Hk. induction Hs as [|x l Hl IH Hx]; simpl; [constructor|].
  constructor.
  - apply IH. intros p Hp. apply Hf. right. exact Hp.
  - apply Forall_forall. intros y Hy.
    apply in_map_iff in Hy as (z & <- & Hz).
    destruct (Hf x (or_introl eq_refl)) as [Hx1 Hx2].
    destruct (Hf z (or_intror Hz)) as [Hz1 Hz2].
    apply (queue_order_keys x (f x) z (f z)); try assumption.
    rewrite Forall_forall in Hx. apply Hx. exact Hz.
Qed.

Lemma onUpdate_keeps_order_witness :
  StronglySorted queue_order
    (onUpdate patient_low_in_progress [patient_high; patient_low]).
Proof.
  apply onUpdate_keeps_order.
  - repeat constructor; unfold queue_order; simpl; lia.
  - intros p [<-|[<-|[]]]; simpl; intros H; try discriminate.
    split; reflexivity.
Defined.

(** The handler does not sort on UPDATE: an event that changes the
    priority can leave the queue out of order. *)
Remark onUpdate_does_not_sort :
  StronglySorted queue_order [patient_high; patient_low]
  /\ ~ StronglySorted queue_order
         (onUpdate
            (DashboardPatient.mk "p1" 75 "Male" true true false severe 1 severity_critical
               (Some "Heart Disease") "T-0001" None waiting 1000 5000)
            [patient_high; patient_low]).
Proof.
  split.
  - repeat constructor; unfold queue_order; simpl; lia.
  - simpl. intros H. inversion H as [|? ? _ H1]; subst.
    inversion H1 as [|? ? H2 _]; subst.
    unfold queue_order in H2. simpl in H2.
    destruct H2 as [H2|[_ H2]]; lia.
Qed.

(** X17. The counters: sorting changes none of them, an INSERT event adds the
    new patient to the total and to each counter it belongs to, an UPDATE
    event keeps the total, and no counter exceeds the total. *)
Theorem stats_events data newPatient payload_new prev :
  stats (fetchPatients_sorted data) = stats data
  /\ stats (onInsert newPatient prev)
     = mkStats (S (total (stats prev)))
         (high_count (stats prev) + if is_high newPatient then 1 else 0)
         (waiting_count (stats prev) + if is_waiting newPatient then 1 else 0)
  /\ total (stats (onUpdate payload_new prev)) = total (stats prev)
  /\ (high_count (stats prev) <= total (stats prev))%nat
  /\ (waiting_count (stats prev) <= total (stats prev))%nat.
Proof.
  split; [symmetry; apply stats_perm; apply Array_sort_queue|].
  split.
  { unfold onInsert. cbv zeta.
    rewrite <- (stats_perm _ _ (Array_sort_perm _ compareFn (prev ++ [newPatient]))).
    unfold stats; simpl.
    rewrite !filter_app, !length_app. simpl.
    destruct (is_high newPatient), (is_waiting newPatient); simpl; f_equal; lia. }
  split; [unfold stats, onUpdate; simpl; apply length_map|].
  unfold stats; simpl. split; apply filter_length_le.
Qed.

(** X18. The Condition cell and the scorer agree on what counts as a disease:
    when the existing-disease block adds nothing the cell shows a dash, and
    when it adds points the cell shows the stored string. *)
Theorem conditionCell_agrees_with_score data score :
  (existingConditions data score = score ->
   conditionCell (existing_disease data) = "-")
  /\ (existingConditions data score <> score ->
      existing_disease data = Some (conditionCell (existing_disease data))).
Proof.
  unfold existingConditions, conditionCell.
  destruct (existing_disease data) as [s|] eqn:E.
  - destruct (truthy (Some s) && strict_neq (Some s) "None").
    + split; [|reflexivity].
      destruct (strict_eq (Some s) "Heart Disease"), (strict_eq (Some s) "Diabetes"),
        (strict_eq (Some s) "Hypertension"), (strict_eq (Some s) "Asthma");
        intros H; lia.
    + split; [reflexivity|]. intros H. contradiction.
  - simpl. split; [reflexivity|]. intros H. contradiction.
Qed.

Lemma conditionCell_agrees_with_score_witness :
  conditionCell (existing_disease (set_existing_disease (Some "None") scenario1))
  = "-".
Proof.
  apply (conditionCell_agrees_with_score
           (set_existing_disease (Some "None") scenario1) 0).
  reflexivity.
Defined.

(** The agreement is one-way: a disease spelled as a dash scores the
    generic five points and still shows as a dash. *)
Remark conditionCell_dash :
  conditionCell (Some "-") = "-"
  /\ existingConditions (set_existing_disease (Some "-") scenario1) 0 = 5.
Proof. split; reflexivity. Qed.

(** ** More on the scorer *)

(** X19. The score is a function of the bands alone: two reports with the same
    symptom flags, pain and severity levels and the same age, disease and
    duration bands get the same total and priority, whatever their gender
    and their exact age, disease string and duration. *)
Theorem totalScore_band_determined r r' :
  age_band (age r) = age_band (age r') ->
  chest_pain r = chest_pain r' ->
  breathlessness r = breathlessness r' ->
  fever r = fever r' ->
  pain_level r = pain_level r' ->
  severity_level r = severity_level r' ->
  disease_band (existing_disease r) = disease_band (existing_disease r') ->
  duration_band (symptom_duration_days r)
  = duration_band (symptom_duration_days r') ->
  totalScore r = totalScore r' /\ predictPriority r = predictPriority r'.
Proof.
  intros Ha Hc Hb Hf Hp Hs Hd Hu.
  assert (H : totalScore r = totalScore r').
  { rewrite !totalScore_sum.
    assert (ageFactor r 0 = ageFactor r' 0) as ->.
    { unfold ageFactor, age_band in *.
      destruct (age r >=? 70), (age r >=? 50), (age r >=? 30),
        (age r' >=? 70), (age r' >=? 50), (age r' >=? 30);
        try reflexivity; discriminate. }
    assert (criticalSymptoms r 0 = criticalSymptoms r' 0) as ->.
    { unfold criticalSymptoms. rewrite Hc, Hb, Hf. reflexivity. }
    assert (painLevel r 0 = painLevel r' 0) as ->.
    { unfold painLevel. rewrite Hp. reflexivity. }
    assert (selfReportedSeverity r 0 = selfReportedSeverity r' 0) as ->.
    { unfold selfReportedSeverity. rewrite Hs. reflexivity. }
    assert (existingConditions r 0 = existingConditions r' 0) as ->.
    { unfold existingConditions, disease_band in *.
      destruct (truthy (existing_disease r) && strict_neq (existing_disease r) "None"),
        (strict_eq (existing_disease r) "Heart Disease"),
        (strict_eq (existing_disease r) "Diabetes"),
        (strict_eq (existing_disease r) "Hypertension"),
        (strict_eq (existing_disease r) "Asthma");
      destruct (truthy (existing_disease r') && strict_neq (existing_disease r') "None"),
        (strict_eq (existing_disease r') "Heart Disease"),
        (strict_eq (existing_disease r') "Diabetes"),
        (strict_eq (existing_disease r') "Hypertension"),
        (strict_eq (existing_disease r') "Asthma");
      try reflexivity; discriminate. }
    assert (symptomDuration r 0 = symptomDuration r' 0) as ->.
    { unfold symptomDuration, duration_band in *.
      destruct (symptom_duration_days r <=? 1), (symptom_duration_days r <=? 3),
        (symptom_duration_days r' <=? 1), (symptom_duration_days r' <=? 3);
        try reflexivity; discriminate. }
    reflexivity. }
  split; [exact H|]. unfold predictPriority. rewrite H. reflexivity.
Qed.

Lemma totalScore_band_determined_witness :
  totalScore scenario3
  = totalScore
      (mkPatientInput 69 "Other" false true true moderate 4 severity_medium
         (Some "Diabetes"))
  /\ predictPriority scenario3
     = predictPriority
         (mkPatientInput 69 "Other" false true true moderate 4 severity_medium
            (Some "Diabetes")).
Proof.
  apply totalScore_band_determined; reflexivity.
Defined.

(** X20. Chest pain together with breathlessness is never low priority, and
    with critical severity it is always high. *)
Theorem chest_pain_breathlessness_not_low data :
  chest_pain data = true ->
  breathlessness data = true ->
  65 <= totalScore data
  /\ predictPriority data <> low
  /\ (severity_level data = severity_critical -> predictPriority data = high).
Proof.
  intros Hc Hb.
  pose proof (totalScore_sum data) as Hsum.
  destruct (ageFactor_range data) as (k1 & E1 & ?).
  destruct (painLevel_range data) as (k3 & E3 & ?).
  destruct (selfReportedSeverity_range data) as (k4 & E4 & ?).
  destruct (existingConditions_range data) as (k5 & E5 & ?).
  destruct (symptomDuration_range data) as (k6 & E6 & ?).
  assert (E2 : 55 <= criticalSymptoms data 0).
  { unfold criticalSymptoms. rewrite Hc, Hb. destruct (fever data); lia. }
  assert (Ht : 65 <= totalScore data) by lia.
  split; [exact Ht|]. split.
  - unfold predictPriority.
    destruct (determinePriority_cases (totalScore data)) as (Hh & Hm & _).
    destruct (Z_lt_le_dec (totalScore data) 75).
    + rewrite Hm by lia. discriminate.
    + rewrite Hh by lia. discriminate.
  - intros Hs. unfold predictPriority.
    apply determinePriority_cases.
    assert (selfReportedSeverity data 0 = 35).
    { unfold selfReportedSeverity. rewrite Hs. reflexivity. }
    lia.
Qed.

Lemma chest_pain_breathlessness_not_low_witness :
  predictPriority
    (mkPatientInput 20 "Female" true true false mild 10 severity_low None)
  <> low.
Proof.
  apply (chest_pain_breathlessness_not_low
           (mkPatientInput 20 "Female" true true false mild 10 severity_low None));
    reflexivity.
Defined.

(** ** More on the notification *)

Lemma string_app_inv_tail (s s' u : string) : s ++ u = s' ++ u -> s = s'.
Proof.
  revert s'. induction s as [|c s IH]; intros [|c' s'] H; simpl in H.
  - reflexivity.
  - exfalso. apply (f_equal String.length) in H. simpl in H.
    rewrite string_length_app in H. lia.
  - exfalso. apply (f_equal String.length) in H. simpl in H.
    rewrite string_length_app in H. lia.
  - injection H as -> H. rewrite (IH s' H). reflexivity.
Qed.

(** X21. The notification determines the tier and the token: two messages are
    equal only for the same priority and the same token. *)
Theorem getNotificationMessage_injective p t p' t' :
  getNotificationMessage p t = getNotificationMessage p' t' ->
  p = p' /\ t = t'.
Proof.
  unfold getNotificationMessage.
  destruct p, p'; simpl; intros H; try discriminate H;
    (split; [reflexivity|]);
    repeat match type of H with
           | String _ _ = String _ _ => injection H as H
           end;
    apply (string_app_inv_tail _ _ _ H).
Qed.

Lemma getNotificationMessage_injective_witness :
  low = low /\ "T-0042" = "T-0042".
Proof.
  apply (getNotificationMessage_injective low "T-0042" low "T-0042").
  reflexivity.
Defined.
